(** * GIS service: geometry engine, project geodata store, GeoJSON export

    A shallow embedding of [src/backend/gis_service/main.py].

    - Python [float] is IEEE 754 binary64: Rocq's primitive floats, with
      the same rounding on [+], [-], [*], [/] and [sqrt].
    - The [math] module's transcendental functions ([sin], [cos], [atan2])
      and float [**] are what the platform's C library gives; they are an
      interface ([Math]) the geometry code is written against.
    - A raised exception is the [Raised] branch of [outcome].
    - The area formula is also given over an arithmetic signature
      ([polygon_area_formula]): the code is its binary64 instance, and its
      instance over the real numbers tells what holds before rounding.
    - The storage object ([GeoDataStorage]) is a record of its cache
      dictionary and of the files under [gis_data/]; every method takes the
      state and returns the new one.  What the file system does on a given
      call (the write fails, the read fails, ...) is supplied by [Env]. *)

From Stdlib Require Import Floats ZArith Reals Lra.
From stdpp Require Import gmap strings list fin_maps.

Set Warnings "-register-all".
(** A decimal float literal stands for the nearest binary64 value, as it
    does in Python. *)
Set Warnings "-inexact-float".

(** ** Python values *)

Abbreviation float := PrimFloat.float.

(** [float(n)] of a list length (lengths stay far below 2^53, where the
    conversion is exact). *)
Definition float_of_nat (n : nat) : float :=
  PrimFloat.of_uint63 (Uint63.of_Z (Z.of_nat n)).

(** The exceptions the service can raise. *)
Inductive exn :=
| ValueError (msg : string)
| OverflowError (msg : string)
| HTTPException (status_code : Z) (detail : string).

(** The result of a call: a value, or an exception that unwinds. *)
Inductive outcome (A : Type) :=
| Returned (a : A)
| Raised (e : exn).
Arguments Returned {A} a.
Arguments Raised {A} e.

Global Instance outcome_ret : MRet outcome := λ A a, Returned a.
Global Instance outcome_bind : MBind outcome := λ A B f o,
  match o with
  | Returned a => f a
  | Raised e => Raised e
  end.

(** [Dict[str, Any]] values as they arrive from a JSON body. *)
#[local] Unset Elimination Schemes.
Inductive json :=
| JNull
| JBool (b : bool)
| JNum (x : float)
| JStr (s : string)
| JList (l : list json)
| JDict (d : gmap string json).
#[local] Set Elimination Schemes.

(** [x if x is not None else null] when a model field is dumped. *)
Definition json_of_optional_float (o : option float) : json :=
  match o with
  | Some x => JNum x
  | None => JNull
  end.

(** [max(xs)] and [min(xs)] of the non-empty list [x :: xs]: the first
    element is kept until a strictly greater (smaller) one is met. *)
Definition py_max (x : float) (xs : list float) : float :=
  fold_left (λ m y, if PrimFloat.ltb m y then y else m) xs x.
Definition py_min (x : float) (xs : list float) : float :=
  fold_left (λ m y, if PrimFloat.ltb y m then y else m) xs x.

(** [sum(xs)] over floats: the accumulator starts at the integer [0] and
    adds the items from left to right.  (CPython 3.12 adds a compensation
    term to this loop; the plain loop of the earlier versions is modelled.) *)
Definition py_sum (xs : list float) : float :=
  fold_left PrimFloat.add xs 0%float.

(** [s.lower()] on the ASCII letters. *)
Definition ascii_lower (a : Ascii.ascii) : Ascii.ascii :=
  let n := Ascii.nat_of_ascii a in
  if (65 <=? n)%nat && (n <=? 90)%nat then Ascii.ascii_of_nat (n + 32) else a.
Fixpoint lower (s : string) : string :=
  match s with
  | EmptyString => EmptyString
  | String a s' => String (ascii_lower a) (lower s')
  end.

(** ** Data models (pydantic) *)

Record Coordinates := {
  latitude : float;
  longitude : float;
  altitude : option float
}.

(** The [Field(..., ge=, le=)] validators of [Coordinates]. *)
Definition Coordinates_valid (c : Coordinates) : bool :=
  PrimFloat.leb (-90)%float (latitude c) && PrimFloat.leb (latitude c) 90%float &&
  PrimFloat.leb (-180)%float (longitude c) && PrimFloat.leb (longitude c) 180%float.

Record Address := {
  formatted_address : string;
  country : option string;
  region : option string;
  city : option string;
  district : option string;
  street : option string;
  house_number : option string;
  postal_code : option string
}.

Record GeoPoint := {
  point_id : string;
  point_coordinates : Coordinates;
  point_address : option Address;
  point_properties : gmap string json;
  point_created_at : Z
}.

Record GeoPolygon := {
  polygon_id : string;
  polygon_coordinates : list (list Coordinates);
  polygon_properties : gmap string json;
  area_sqm : option float;
  perimeter_m : option float;
  polygon_created_at : Z
}.

Record GeoLine := {
  line_id : string;
  line_coordinates : list Coordinates;
  line_properties : gmap string json;
  length_m : option float;
  line_created_at : Z
}.

Record ProjectGeoData := {
  project_id : string;
  points : list GeoPoint;
  polygons : list GeoPolygon;
  lines : list GeoLine;
  bounds : option (gmap string float);
  center : option Coordinates
}.

(** [ProjectGeoData(project_id=project_id)]: every other field at its default. *)
Definition new_ProjectGeoData (pid : string) : ProjectGeoData :=
  {| project_id := pid; points := []; polygons := []; lines := [];
     bounds := None; center := None |}.

(** Attribute assignments on a model object. *)
Definition set_project_id (pid : string) (g : ProjectGeoData) : ProjectGeoData :=
  {| project_id := pid; points := points g; polygons := polygons g;
     lines := lines g; bounds := bounds g; center := center g |}.
Definition set_points (ps : list GeoPoint) (g : ProjectGeoData) : ProjectGeoData :=
  {| project_id := project_id g; points := ps; polygons := polygons g;
     lines := lines g; bounds := bounds g; center := center g |}.
Definition set_polygons (qs : list GeoPolygon) (g : ProjectGeoData) : ProjectGeoData :=
  {| project_id := project_id g; points := points g; polygons := qs;
     lines := lines g; bounds := bounds g; center := center g |}.
Definition set_lines (ls : list GeoLine) (g : ProjectGeoData) : ProjectGeoData :=
  {| project_id := project_id g; points := points g; polygons := polygons g;
     lines := ls; bounds := bounds g; center := center g |}.
Definition set_bounds_center (b : option (gmap string float)) (c : option Coordinates)
    (g : ProjectGeoData) : ProjectGeoData :=
  {| project_id := project_id g; points := points g; polygons := polygons g;
     lines := lines g; bounds := b; center := c |}.
Definition set_area_sqm (a : option float) (q : GeoPolygon) : GeoPolygon :=
  {| polygon_id := polygon_id q; polygon_coordinates := polygon_coordinates q;
     polygon_properties := polygon_properties q; area_sqm := a;
     perimeter_m := perimeter_m q; polygon_created_at := polygon_created_at q |}.
Definition set_length_m (x : option float) (l : GeoLine) : GeoLine :=
  {| line_id := line_id l; line_coordinates := line_coordinates l;
     line_properties := line_properties l; length_m := x;
     line_created_at := line_created_at l |}.

(** ** The [math] module *)

(** [math.sin], [math.cos], [math.atan2] and float [**] as Python calls:
    each returns a float or raises ([ValueError] on a domain error,
    [OverflowError] on a range error). *)
Class Math := {
  math_sin : float → outcome float;
  math_cos : float → outcome float;
  math_atan2 : float → float → outcome float;
  float_pow : float → float → outcome float
}.

(** [math.pi]. *)
Definition math_pi : float := 0x1.921fb54442d18p+1%float.

(** [math.radians(x)]: [x] times the constant [pi / 180]. *)
Definition math_radians (x : float) : float :=
  PrimFloat.mul x (PrimFloat.div math_pi 180%float).

(** [math.sqrt(x)]: the correctly rounded square root; a negative argument
    is a domain error. *)
Definition math_sqrt (x : float) : outcome float :=
  if PrimFloat.ltb x 0%float then Raised (ValueError "math domain error")
  else Returned (PrimFloat.sqrt x).

(** ** class GeometryService *)

Module GeometryService.
Section Geometry.
Context {M : Math}.
Local Open Scope float_scope.

Definition haversine_distance (lat1 lon1 lat2 lon2 : float) : outcome float :=
  let R := 6371000 in
  let lat1_rad := math_radians lat1 in
  let lat2_rad := math_radians lat2 in
  let delta_lat := math_radians (lat2 - lat1) in
  let delta_lon := math_radians (lon2 - lon1) in
  s1 ← math_sin (delta_lat / 2);
  p1 ← float_pow s1 2;
  c1 ← math_cos lat1_rad;
  c2 ← math_cos lat2_rad;
  s2 ← math_sin (delta_lon / 2);
  p2 ← float_pow s2 2;
  let a := p1 + c1 * c2 * p2 in
  sa ← math_sqrt a;
  sb ← math_sqrt (1 - a);
  t ← math_atan2 sa sb;
  let c := 2 * t in
  Returned (R * c).

(** One round of the shoelace loop: [i] is the loop index, [n] the
    length.  Both indices are below [n], so the lookups succeed. *)
Definition shoelace_step (coordinates : list Coordinates) (n : nat)
    (area : float) (i : nat) : float :=
  let j := ((i + 1) mod n)%nat in
  match coordinates !! i, coordinates !! j with
  | Some ci, Some cj =>
      (area + longitude ci * latitude cj) - longitude cj * latitude ci
  | _, _ => area
  end.

Definition calculate_polygon_area (coordinates : list Coordinates) : outcome float :=
  if (length coordinates <? 3)%nat then Returned 0
  else
    let n := length coordinates in
    let area := fold_left (shoelace_step coordinates n) (seq 0 n) 0 in
    let area := PrimFloat.abs area / 2 in
    let avg_lat := py_sum (map latitude coordinates) / float_of_nat n in
    lat_factor ← math_cos (math_radians avg_lat);
    let area_sqm := area * 12392142400 * lat_factor in
    Returned (PrimFloat.abs area_sqm).

(** One round of the length loop, on the running total. *)
Definition line_length_step (coordinates : list Coordinates)
    (total : outcome float) (i : nat) : outcome float :=
  total_length ← total;
  match coordinates !! i, coordinates !! (i + 1)%nat with
  | Some a, Some b =>
      distance ← haversine_distance (latitude a) (longitude a)
                                    (latitude b) (longitude b);
      Returned (total_length + distance)
  | _, _ => Returned total_length
  end.

Definition calculate_line_length (coordinates : list Coordinates) : outcome float :=
  if (length coordinates <? 2)%nat then Returned 0
  else fold_left (line_length_step coordinates)
                 (seq 0 (length coordinates - 1)) (Returned 0).
End Geometry.

(** [calculate_bounds]: the empty dictionary for no coordinates, else the
    four extremes. *)
Definition calculate_bounds (coordinates : list Coordinates) : gmap string float :=
  match coordinates with
  | [] => ∅
  | c :: cs =>
      let lats := map latitude cs in
      let lons := map longitude cs in
      <["north" := py_max (latitude c) lats]>
        (<["south" := py_min (latitude c) lats]>
          (<["east" := py_max (longitude c) lons]>
            (<["west" := py_min (longitude c) lons]> ∅)))
  end.

Definition calculate_center (coordinates : list Coordinates) : Coordinates :=
  match coordinates with
  | [] => {| latitude := 0%float; longitude := 0%float; altitude := None |}
  | _ :: _ =>
      let n := float_of_nat (length coordinates) in
      {| latitude := PrimFloat.div (py_sum (map latitude coordinates)) n;
         longitude := PrimFloat.div (py_sum (map longitude coordinates)) n;
         altitude := None |}
  end.
End GeometryService.

(** ** class GeoDataStorage *)

(** What the file [gis_data/<project_id>.json] holds: the dumped aggregate
    with its [updated_at] stamp (reading it back with [json.loads] and
    the [ProjectGeoData] constructor gives the aggregate again), or text that does
    not parse (a write that was cut short leaves such a file). *)
Inductive stored_file :=
| JsonRecord (data : ProjectGeoData) (updated_at : string)
| Unreadable.

(** How the write of [save_project_geodata] ends: it completes; [open]
    raises and the file is untouched; or the file is opened (and so
    truncated) and [json.dumps] or [f.write] raises (json cannot encode
    every Python value, a [datetime] for one, and a disk can fill up). *)
Inductive write_outcome :=
| WriteOk
| OpenFails
| WriteFails.

(** What the surroundings decide during one request. *)
Record Env := {
  env_now : string;            (* datetime.now().isoformat() *)
  env_write : write_outcome;   (* the write of save_project_geodata *)
  env_read : bool;             (* reading an existing file succeeds *)
  env_unlink : bool            (* unlinking an existing file succeeds *)
}.

Module GeoDataStorage.
(** [self.projects] (the cache) and the files of [self.data_dir], both
    keyed by project id. *)
Record t := {
  projects : gmap string ProjectGeoData;
  data_dir : gmap string stored_file
}.

(** [__init__]: an empty cache over whatever files the directory holds. *)
Definition init (files : gmap string stored_file) : t :=
  {| projects := ∅; data_dir := files |}.

Definition save_project_geodata (env : Env) (project_id : string)
    (geodata : ProjectGeoData) (self : t) : bool * t :=
  match env_write env with
  | WriteOk =>
      (true,
       {| projects := <[project_id := geodata]> (projects self);
          data_dir := <[project_id := JsonRecord geodata (env_now env)]> (data_dir self) |})
  | OpenFails => (false, self)
  | WriteFails =>
      (false,
       {| projects := projects self;
          data_dir := <[project_id := Unreadable]> (data_dir self) |})
  end.

Definition load_project_geodata (env : Env) (project_id : string) (self : t)
    : option ProjectGeoData * t :=
  match projects self !! project_id with
  | Some geodata => (Some geodata, self)
  | None =>
      match data_dir self !! project_id with
      | None => (None, self)
      | Some file =>
          if env_read env then
            match file with
            | JsonRecord geodata _ =>
                (Some geodata,
                 {| projects := <[project_id := geodata]> (projects self);
                    data_dir := data_dir self |})
            | Unreadable => (None, self)
            end
          else (None, self)
      end
  end.

Definition delete_project_geodata (env : Env) (project_id : string) (self : t)
    : bool * t :=
  match data_dir self !! project_id with
  | Some _ =>
      if env_unlink env then
        (true,
         {| projects := delete project_id (projects self);
            data_dir := delete project_id (data_dir self) |})
      else (false, self)
  | None =>
      (true,
       {| projects := delete project_id (projects self);
          data_dir := data_dir self |})
  end.

(** An in-place change of the object the cache holds under [project_id]
    (the object [load_project_geodata] hands out is that very object). *)
Definition mutate_cached (project_id : string) (geodata : ProjectGeoData)
    (self : t) : t :=
  {| projects := <[project_id := geodata]> (projects self);
     data_dir := data_dir self |}.
End GeoDataStorage.

(** ** API endpoints *)

Section Endpoints.
Context {M : Math}.

Definition get_project_geodata (env : Env) (project_id : string)
    (storage : GeoDataStorage.t) : outcome ProjectGeoData * GeoDataStorage.t :=
  let '(geodata, storage) :=
    GeoDataStorage.load_project_geodata env project_id storage in
  match geodata with
  | None => (Raised (HTTPException 404 "Геоданные проекта не найдены"), storage)
  | Some geodata => (Returned geodata, storage)
  end.

(** The coordinates [save_project_geodata] gathers: the points', then
    every ring of every polygon, then the lines'. *)
Definition all_coordinates (geodata : ProjectGeoData) : list Coordinates :=
  map point_coordinates (points geodata)
  ++ concat (map (λ polygon, concat (polygon_coordinates polygon)) (polygons geodata))
  ++ concat (map line_coordinates (lines geodata)).

(** [if polygon.coordinates and polygon.coordinates[0]: polygon.area_sqm = ...] *)
Definition recompute_polygon (polygon : GeoPolygon) : outcome GeoPolygon :=
  match polygon_coordinates polygon with
  | (_ :: _) as ring :: _ =>
      area ← GeometryService.calculate_polygon_area ring;
      Returned (set_area_sqm (Some area) polygon)
  | _ => Returned polygon
  end.

(** [line.length_m = geometry_service.calculate_line_length(line.coordinates)] *)
Definition recompute_line (line : GeoLine) : outcome GeoLine :=
  length ← GeometryService.calculate_line_length (line_coordinates line);
  Returned (set_length_m (Some length) line).

(** The derived fields as the save endpoint sets them on the request
    object, before it is handed to the storage. *)
Definition recompute_derived (geodata : ProjectGeoData) : outcome ProjectGeoData :=
  let all_coordinates := all_coordinates geodata in
  polygons' ← mapM recompute_polygon (polygons geodata);
  lines' ← mapM recompute_line (lines geodata);
  let geodata := set_lines lines' (set_polygons polygons' geodata) in
  Returned
    match all_coordinates with
    | [] => geodata
    | _ :: _ =>
        set_bounds_center (Some (GeometryService.calculate_bounds all_coordinates))
                          (Some (GeometryService.calculate_center all_coordinates))
                          geodata
    end.

Definition save_project_geodata (env : Env) (project_id : string)
    (geodata : ProjectGeoData) (storage : GeoDataStorage.t)
    : outcome json * GeoDataStorage.t :=
  let geodata := set_project_id project_id geodata in
  match recompute_derived geodata with
  | Raised e => (Raised e, storage)
  | Returned geodata =>
      let '(success, storage) :=
        GeoDataStorage.save_project_geodata env project_id geodata storage in
      if success then
        (Returned (JDict {[ "status" := JStr "success";
                            "message" := JStr "Геоданные сохранены" ]}), storage)
      else (Raised (HTTPException 500 "Ошибка сохранения геоданных"), storage)
  end.

Definition delete_project_geodata (env : Env) (project_id : string)
    (storage : GeoDataStorage.t) : outcome json * GeoDataStorage.t :=
  let '(success, storage) :=
    GeoDataStorage.delete_project_geodata env project_id storage in
  if success then
    (Returned (JDict {[ "status" := JStr "success";
                        "message" := JStr "Геоданные удалены" ]}), storage)
  else (Raised (HTTPException 500 "Ошибка удаления геоданных"), storage).

(** [geodata.points.append(point)] changes the loaded object in place:
    when it came out of the cache, the cache sees the new point before
    (and whether or not) the save goes through. *)
Definition add_project_point (env : Env) (project_id : string) (point : GeoPoint)
    (storage : GeoDataStorage.t) : outcome json * GeoDataStorage.t :=
  let '(loaded, storage) :=
    GeoDataStorage.load_project_geodata env project_id storage in
  let '(geodata, storage) :=
    match loaded with
    | Some geodata =>
        let geodata := set_points (points geodata ++ [point]) geodata in
        (geodata, GeoDataStorage.mutate_cached project_id geodata storage)
    | None => (set_points [point] (new_ProjectGeoData project_id), storage)
    end in
  let '(success, storage) :=
    GeoDataStorage.save_project_geodata env project_id geodata storage in
  if success then
    (Returned (JDict {[ "status" := JStr "success";
                        "point_id" := JStr (point_id point) ]}), storage)
  else (Raised (HTTPException 500 "Ошибка сохранения точки"), storage).

Definition add_project_polygon (env : Env) (project_id : string)
    (polygon : GeoPolygon) (storage : GeoDataStorage.t)
    : outcome json * GeoDataStorage.t :=
  let '(loaded, storage) :=
    GeoDataStorage.load_project_geodata env project_id storage in
  match recompute_polygon polygon with
  | Raised e => (Raised e, storage)
  | Returned polygon =>
      let '(geodata, storage) :=
        match loaded with
        | Some geodata =>
            let geodata := set_polygons (polygons geodata ++ [polygon]) geodata in
            (geodata, GeoDataStorage.mutate_cached project_id geodata storage)
        | None => (set_polygons [polygon] (new_ProjectGeoData project_id), storage)
        end in
      let '(success, storage) :=
        GeoDataStorage.save_project_geodata env project_id geodata storage in
      if success then
        (Returned (JDict {[ "status" := JStr "success";
                            "polygon_id" := JStr (polygon_id polygon) ]}), storage)
      else (Raised (HTTPException 500 "Ошибка сохранения полигона"), storage)
  end.
End Endpoints.

(** *** Export *)

(** [[coord.longitude, coord.latitude]] *)
Definition lon_lat (coord : Coordinates) : json :=
  JList [JNum (longitude coord); JNum (latitude coord)].

(** The feature appended for one point; [**point.properties] comes last
    in the literal, so its keys win over ["id"]. *)
Definition point_feature (point : GeoPoint) : json :=
  JDict {[ "type" := JStr "Feature";
           "geometry" := JDict {[ "type" := JStr "Point";
                                  "coordinates" := lon_lat (point_coordinates point) ]};
           "properties" :=
             JDict (point_properties point ∪ {[ "id" := JStr (point_id point) ]}) ]}.

Definition polygon_feature (polygon : GeoPolygon) : json :=
  let coordinates :=
    map (λ ring, JList (map lon_lat ring)) (polygon_coordinates polygon) in
  JDict {[ "type" := JStr "Feature";
           "geometry" := JDict {[ "type" := JStr "Polygon";
                                  "coordinates" := JList coordinates ]};
           "properties" :=
             JDict (polygon_properties polygon
                    ∪ {[ "id" := JStr (polygon_id polygon);
                         "area_sqm" := json_of_optional_float (area_sqm polygon) ]}) ]}.

Definition line_feature (line : GeoLine) : json :=
  let coordinates := map lon_lat (line_coordinates line) in
  JDict {[ "type" := JStr "Feature";
           "geometry" := JDict {[ "type" := JStr "LineString";
                                  "coordinates" := JList coordinates ]};
           "properties" :=
             JDict (line_properties line
                    ∪ {[ "id" := JStr (line_id line);
                         "length_m" := json_of_optional_float (length_m line) ]}) ]}.

(** [geodata.center.dict()] *)
Definition Coordinates_dict (c : Coordinates) : json :=
  JDict {[ "latitude" := JNum (latitude c);
           "longitude" := JNum (longitude c);
           "altitude" := json_of_optional_float (altitude c) ]}.

(** The features in the order the three loops append them. *)
Definition features (geodata : ProjectGeoData) : list json :=
  map point_feature (points geodata)
  ++ map polygon_feature (polygons geodata)
  ++ map line_feature (lines geodata).

(** The [geojson] dictionary of the ["geojson"] branch. *)
Definition geojson (project_id : string) (geodata : ProjectGeoData) : json :=
  JDict {[ "type" := JStr "FeatureCollection";
           "features" := JList (features geodata);
           "properties" :=
             JDict {[ "project_id" := JStr project_id;
                      "bounds" := match bounds geodata with
                                  | Some b => JDict (JNum <$> b)
                                  | None => JNull
                                  end;
                      "center" := match center geodata with
                                  | Some c => Coordinates_dict c
                                  | None => JNull
                                  end ]} ]}.

Definition export_project_geodata (env : Env) (project_id : string)
    (format : string) (storage : GeoDataStorage.t)
    : outcome json * GeoDataStorage.t :=
  let '(geodata, storage) :=
    GeoDataStorage.load_project_geodata env project_id storage in
  match geodata with
  | None => (Raised (HTTPException 404 "Геоданные проекта не найдены"), storage)
  | Some geodata =>
      if decide (lower format = "geojson")
      then (Returned (geojson project_id geodata), storage)
      else (Raised (HTTPException 400 "Неподдерживаемый формат экспорта"), storage)
  end.

(** ** Notions of the specification *)



(** [d[key]] of a JSON object. *)
Definition json_get (key : string) (j : json) : option json :=
  match j with
  | JDict d => d !! key
  | _ => None
  end.

(** ** The area formula and its arithmetic *)

(** The operations [calculate_polygon_area] is made of, as a signature.
    The code runs the formula in binary64; read over the real numbers,
    the same formula tells what holds of it before rounding. *)
Record Arithmetic (T : Type) := {
  ar_zero : T;
  ar_two : T;
  ar_scale : T;                     (* 111320 ** 2 *)
  ar_add : T → T → T;
  ar_sub : T → T → T;
  ar_mul : T → T → T;
  ar_div : T → T → T;
  ar_abs : T → T;
  ar_of_nat : nat → T;              (* the length, as a number *)
  ar_cos_radians : T → outcome T    (* math.cos(math.radians(x)) *)
}.
Arguments ar_zero {T} _.
Arguments ar_two {T} _.
Arguments ar_scale {T} _.
Arguments ar_add {T} _ _ _.
Arguments ar_sub {T} _ _ _.
Arguments ar_mul {T} _ _ _.
Arguments ar_div {T} _ _ _.
Arguments ar_abs {T} _ _.
Arguments ar_of_nat {T} _ _.
Arguments ar_cos_radians {T} _ _.

Section Formula.
Context {T : Type} (A : Arithmetic T).

(** A coordinate is the pair (latitude, longitude). *)
Definition formula_step (coordinates : list (T * T)) (n : nat) (area : T) (i : nat) : T :=
  let j := ((i + 1) mod n)%nat in
  match coordinates !! i, coordinates !! j with
  | Some ci, Some cj =>
      ar_sub A (ar_add A area (ar_mul A ci.2 cj.1)) (ar_mul A cj.2 ci.1)
  | _, _ => area
  end.

Definition polygon_area_formula (coordinates : list (T * T)) : outcome T :=
  if (length coordinates <? 3)%nat then Returned (ar_zero A)
  else
    let n := length coordinates in
    let area := fold_left (formula_step coordinates n) (seq 0 n) (ar_zero A) in
    let area := ar_div A (ar_abs A area) (ar_two A) in
    let avg_lat :=
      ar_div A (fold_left (ar_add A) (map fst coordinates) (ar_zero A)) (ar_of_nat A n) in
    lat_factor ← ar_cos_radians A avg_lat;
    let area_sqm := ar_mul A (ar_mul A area (ar_scale A)) lat_factor in
    Returned (ar_abs A area_sqm).
End Formula.

(** The arithmetic of the code: Python floats and the [math] module. *)
Definition binary64_floats {M : Math} : Arithmetic float :=
  {| ar_zero := 0%float; ar_two := 2%float; ar_scale := 12392142400%float;
     ar_add := PrimFloat.add; ar_sub := PrimFloat.sub;
     ar_mul := PrimFloat.mul; ar_div := PrimFloat.div;
     ar_abs := PrimFloat.abs; ar_of_nat := float_of_nat;
     ar_cos_radians := λ x, math_cos (math_radians x) |}.


Definition lat_lon (c : Coordinates) : float * float := (latitude c, longitude c).




(** ** Inputs for the examples *)


(** A request during which every file operation goes through. *)
Definition env_ok : Env :=
  {| env_now := "2024-01-01T00:00:00"; env_write := WriteOk;
     env_read := true; env_unlink := true |}.

(** A stand-in for the [math] module, to run the geometry on examples:
    the first-order approximations near zero ([sin x] as [x], [cos x] as
    [1], [atan2 y x] as [y / x]) and [x ** y] as [x * x] (the service only
    squares). *)
Definition small_angle_math : Math :=
  {| math_sin := λ x, Returned x;
     math_cos := λ _, Returned 1%float;
     math_atan2 := λ y x, Returned (PrimFloat.div y x);
     float_pow := λ x _, Returned (PrimFloat.mul x x) |}.

(** A request during which the file is opened and the write then fails. *)
Definition env_write_fails : Env :=
  {| env_now := "2024-01-02T00:00:00"; env_write := WriteFails;
     env_read := true; env_unlink := true |}.

(** A request body without members whose [project_id] is not the one of
    the path. *)
Definition body_other_id : ProjectGeoData :=
  {| project_id := "other"; points := []; polygons := []; lines := [];
     bounds := None; center := None |}.

(** A storage that holds project ["p"] both in the cache and on disk. *)
Definition storage_with_p : GeoDataStorage.t :=
  {| GeoDataStorage.projects := {[ "p" := new_ProjectGeoData "p" ]};
     GeoDataStorage.data_dir :=
       {[ "p" := JsonRecord (new_ProjectGeoData "p") "2024-01-01T00:00:00" ]} |}.

(** Two points for the examples. *)
Definition point_a : GeoPoint :=
  {| point_id := "a";
     point_coordinates := {| latitude := 55.75; longitude := 37.5; altitude := None |};
     point_address := None; point_properties := ∅; point_created_at := 0 |}.

(** A request body without members that carries bounds and a center of
    the caller's. *)
Definition stale_request : ProjectGeoData :=
  {| project_id := "p"; points := []; polygons := []; lines := [];
     bounds := Some {[ "north" := 1%float; "south" := 0%float;
                       "east" := 1%float; "west" := 0%float ]};
     center := Some {| latitude := 5; longitude := 5; altitude := None |} |}.

(** A request body with one point, one triangle and one two-point line,
    all derived fields filled in by the caller with other values. *)
Definition sample_request : ProjectGeoData :=
  {| project_id := "p";
     points := [point_a];
     polygons :=
       [ {| polygon_id := "t";
            polygon_coordinates :=
              [ [ {| latitude := 0; longitude := 0; altitude := None |};
                  {| latitude := 0; longitude := 0.5; altitude := None |};
                  {| latitude := 0.5; longitude := 0; altitude := None |} ] ];
            polygon_properties := ∅; area_sqm := Some 1%float;
            perimeter_m := None; polygon_created_at := 2 |} ];
     lines :=
       [ {| line_id := "l";
            line_coordinates :=
              [ {| latitude := 1; longitude := 1; altitude := None |};
                {| latitude := 1; longitude := 2; altitude := None |} ];
            line_properties := ∅; length_m := Some 1%float;
            line_created_at := 3 |} ];
     bounds := Some ∅;
     center := Some {| latitude := 5; longitude := 5; altitude := None |} |}.

(** A polygon whose own [properties] have an ["area_sqm"] entry, and a
    storage that holds it (with the point [point_a]) in its cache. *)
Definition polygon_with_area_property : GeoPolygon :=
  {| polygon_id := "q";
     polygon_coordinates :=
       [ [ {| latitude := 0; longitude := 0; altitude := None |};
           {| latitude := 0; longitude := 0.5; altitude := None |};
           {| latitude := 0.5; longitude := 0; altitude := None |} ] ];
     polygon_properties := {[ "area_sqm" := JStr "unknown" ]};
     area_sqm := Some 12.5%float;
     perimeter_m := None; polygon_created_at := 4 |}.
Definition storage_with_q : GeoDataStorage.t :=
  {| GeoDataStorage.projects :=
       {[ "p" := {| project_id := "p"; points := [point_a];
                    polygons := [polygon_with_area_property]; lines := [];
                    bounds := None; center := None |} ]};
     GeoDataStorage.data_dir := ∅ |}.

(** What a [math] module with correctly rounded [sin] and [cos] (the GNU C
    library's are, at these arguments) returns for the calls that
    [haversine_distance 8 0 (-8) 180] makes; a float [x ** 2] is the
    rounded square. *)
Definition correctly_rounded_at_antipode (M : Math) : Prop :=
  math_sin (-0x1.1df46a2529d39p-3)%float = Returned (-0x1.1d06c968d9e19p-3)%float ∧
  float_pow (-0x1.1d06c968d9e19p-3)%float 2%float = Returned 0x1.3d581ca184804p-6%float ∧
  math_cos 0x1.1df46a2529d39p-3%float = Returned 0x1.fb046a930947ap-1%float ∧
  math_cos (-0x1.1df46a2529d39p-3)%float = Returned 0x1.fb046a930947ap-1%float ∧
  math_sin 0x1.921fb54442d18p+0%float = Returned 1%float ∧
  float_pow 1%float 2%float = Returned 1%float.

(** A [math] module tabulated at those arguments (its [sin] and [cos]
    raise elsewhere; its [**] squares). *)
Definition tabulated_math : Math :=
  {| math_sin := λ x,
       if PrimFloat.eqb x (-0x1.1df46a2529d39p-3)%float
       then Returned (-0x1.1d06c968d9e19p-3)%float
       else if PrimFloat.eqb x 0x1.921fb54442d18p+0%float then Returned 1%float
       else Raised (ValueError "not tabulated");
     math_cos := λ x,
       if PrimFloat.eqb (PrimFloat.abs x) 0x1.1df46a2529d39p-3%float
       then Returned 0x1.fb046a930947ap-1%float
       else Raised (ValueError "not tabulated");
     math_atan2 := λ _ _, Raised (ValueError "not tabulated");
     float_pow := λ x _, Returned (PrimFloat.mul x x) |}.

(** A triangle with the vertices (0.1, 0.1), (-0.1, 0.6) and (0, 0.2), as
    (latitude, longitude); the decimal literals stand for the nearest
    binary64 values, as they do in Python. *)
Definition triangle_ring : list Coordinates :=
  [ {| latitude := 0.1; longitude := 0.1; altitude := None |};
    {| latitude := -0.1; longitude := 0.6; altitude := None |};
    {| latitude := 0; longitude := 0.2; altitude := None |} ].

(** * The rest of the service *)

(** ** Python builtins *)

(** [round(x, ndigits)] on a float, [hash(s)] and [s.lower()] on a [str]
    are what the interpreter gives: [hash] is salted per process and
    [lower] follows the Unicode tables.  With [ndigits] given, [round]
    returns a float and raises nothing. *)
Class Builtins := {
  round : float → Z → float;
  hash : string → Z;
  str_lower : string → string
}.

(** [needle in s] on two strings. *)
Fixpoint str_in (needle s : string) : bool :=
  String.prefix needle s ||
  match s with
  | EmptyString => false
  | String _ s' => str_in needle s'
  end.

(** [a / b] on two ints below 2^53: the quotient of the two floats,
    rounded once. *)
Definition int_truediv (a b : Z) : float :=
  PrimFloat.div (float_of_nat (Z.to_nat a)) (float_of_nat (Z.to_nat b)).

(** ** class GeocodingService *)

Module GeocodingService.
Section Geocoding.
Context {B : Builtins}.
Local Open Scope float_scope.

(** The mock geocoder.  Nothing in its [try] block can raise, so the
    [except] clause is never entered; [country] and [limit] are not
    read. *)
Definition geocode_address (address : string) (country : option string) (limit : Z)
    : outcome (list json) :=
  if str_in "москва" (str_lower address) || str_in "moscow" (str_lower address) then
    Returned
      [ JDict {[ "formatted_address" := JStr (address +:+ ", Москва, Россия");
                 "coordinates" :=
                   JDict {[ "latitude" := JNum (55.7558 + int_truediv (hash address `mod` 100) 10000);
                            "longitude" := JNum (37.6176 + int_truediv (hash address `mod` 100) 10000) ]};
                 "address_components" :=
                   JDict {[ "country" := JStr "Россия"; "region" := JStr "Москва";
                            "city" := JStr "Москва"; "street" := JStr address ]};
                 "accuracy" := JStr "street";
                 "confidence" := JNum 0.9 ]} ]
  else
    Returned
      [ JDict {[ "formatted_address" := JStr (address +:+ ", Россия");
                 "coordinates" :=
                   JDict {[ "latitude" := JNum (55.0 + int_truediv (hash address `mod` 1000) 100);
                            "longitude" := JNum (37.0 + int_truediv (hash address `mod` 1000) 100) ]};
                 "address_components" :=
                   JDict {[ "country" := JStr "Россия"; "street" := JStr address ]};
                 "accuracy" := JStr "approximate";
                 "confidence" := JNum 0.7 ]} ].
End Geocoding.
End GeocodingService.

(** ** The geocoding and calculator endpoints *)

Record GeocodeRequest := {
  request_address : string;
  request_country : option string;
  request_limit : Z
}.

(** [limit: int = Field(1, ge=1, le=10)] *)
Definition GeocodeRequest_valid (request : GeocodeRequest) : bool :=
  (1 <=? request_limit request)%Z && (request_limit request <=? 10)%Z.

Record GeocodeResponse := {
  query : string;
  results : list json;
  total_found : Z
}.

Record DistanceRequest := {
  point1 : Coordinates;
  point2 : Coordinates;
  distance_unit : string
}.

(** The validators of [DistanceRequest]: those of its two points and
    [validate_unit]. *)
Definition DistanceRequest_valid (request : DistanceRequest) : bool :=
  Coordinates_valid (point1 request) && Coordinates_valid (point2 request) &&
  bool_decide (distance_unit request ∈ ["meters"; "kilometers"; "miles"]).

Record AreaRequest := {
  area_coordinates : list Coordinates;
  area_unit : string
}.

(** The validators of [AreaRequest]: those of its coordinates,
    [min_items=3] and [validate_unit]. *)
Definition AreaRequest_valid (request : AreaRequest) : bool :=
  forallb Coordinates_valid (area_coordinates request) &&
  (3 <=? length (area_coordinates request))%nat &&
  bool_decide (area_unit request ∈ ["sqm"; "sqkm"; "hectares"]).

Section Calculators.
Context {M : Math} {B : Builtins}.
Local Open Scope float_scope.

(** [POST /geocode]: whatever the geocoder raises becomes HTTP 500. *)
Definition geocode_address (request : GeocodeRequest) : outcome GeocodeResponse :=
  match GeocodingService.geocode_address (request_address request)
          (request_country request) (request_limit request) with
  | Returned results =>
      Returned {| query := request_address request;
                  results := results;
                  total_found := Z.of_nat (length results) |}
  | Raised _ => Raised (HTTPException 500 "Ошибка геокодирования")
  end.

(** [POST /distance]: the [try] block spans the whole body, so every
    exception of the computation becomes HTTP 500. *)
Definition calculate_distance (request : DistanceRequest) : outcome json :=
  match GeometryService.haversine_distance
          (latitude (point1 request)) (longitude (point1 request))
          (latitude (point2 request)) (longitude (point2 request)) with
  | Returned distance_m =>
      let distance :=
        if decide (distance_unit request = "kilometers") then distance_m / 1000
        else if decide (distance_unit request = "miles") then distance_m / 1609.34
        else distance_m in
      Returned (JDict {[ "distance" := JNum (round distance 2);
                         "unit" := JStr (distance_unit request);
                         "distance_meters" := JNum distance_m ]})
  | Raised _ => Raised (HTTPException 500 "Ошибка расчета расстояния")
  end.

(** [POST /area] *)
Definition calculate_area (request : AreaRequest) : outcome json :=
  match GeometryService.calculate_polygon_area (area_coordinates request) with
  | Returned area_sqm =>
      let area :=
        if decide (area_unit request = "sqkm") then area_sqm / 1000000
        else if decide (area_unit request = "hectares") then area_sqm / 10000
        else area_sqm in
      Returned (JDict {[ "area" := JNum (round area 2);
                         "unit" := JStr (area_unit request);
                         "area_sqm" := JNum area_sqm ]})
  | Raised _ => Raised (HTTPException 500 "Ошибка расчета площади")
  end.
End Calculators.

(** ** Notions for the further properties *)

(** Two storages agree on every project but [pid]. *)
Definition same_elsewhere (pid : string) (st st' : GeoDataStorage.t) : Prop :=
  ∀ pid', pid' ≠ pid →
    GeoDataStorage.projects st' !! pid' = GeoDataStorage.projects st !! pid' ∧
    GeoDataStorage.data_dir st' !! pid' = GeoDataStorage.data_dir st !! pid'.

(** Every aggregate the storage holds, cached or in a file that parses,
    names the project it is filed under. *)
Definition keys_match (st : GeoDataStorage.t) : Prop :=
  map_Forall (λ pid g, project_id g = pid) (GeoDataStorage.projects st) ∧
  map_Forall (λ pid file, match file with
                          | JsonRecord g _ => project_id g = pid
                          | Unreadable => True
                          end) (GeoDataStorage.data_dir st).



(** The segments of a line, first to last, and the length of one. *)
Definition segments (coordinates : list Coordinates) : list (Coordinates * Coordinates) :=
  zip coordinates (tail coordinates).
Definition segment_length {M : Math} (segment : Coordinates * Coordinates) : outcome float :=
  GeometryService.haversine_distance (latitude segment.1) (longitude segment.1)
                                     (latitude segment.2) (longitude segment.2).

(** A coordinate lies within a [bounds] dictionary: between south and
    north, and between west and east, by the order [<=] of floats. *)
Definition within (b : gmap string float) (c : Coordinates) : bool :=
  match b !! "north", b !! "south", b !! "east", b !! "west" with
  | Some north, Some south, Some east, Some west =>
      PrimFloat.leb south (latitude c) && PrimFloat.leb (latitude c) north &&
      PrimFloat.leb west (longitude c) && PrimFloat.leb (longitude c) east
  | _, _, _, _ => false
  end.

(** The coordinates of a geocoding result. *)
Definition result_coordinates (result : json) : option Coordinates :=
  match json_get "coordinates" result with
  | Some coordinates =>
      match json_get "latitude" coordinates, json_get "longitude" coordinates with
      | Some (JNum lat), Some (JNum lon) =>
          Some {| latitude := lat; longitude := lon; altitude := None |}
      | _, _ => None
      end
  | None => None
  end.

(** ** Further inputs for the examples *)

(** A request during which [open] fails, and one during which nothing
    can be read or unlinked. *)
Definition env_open_fails : Env :=
  {| env_now := "2024-01-03T00:00:00"; env_write := OpenFails;
     env_read := true; env_unlink := true |}.
Definition env_no_access : Env :=
  {| env_now := "2024-01-04T00:00:00"; env_write := WriteOk;
     env_read := false; env_unlink := false |}.

(** Stand-ins for the builtins: [round] leaves its argument, [hash] is
    the length, [lower] works on the ASCII letters. *)
Definition plain_builtins : Builtins :=
  {| round := λ x _, x;
     hash := λ s, Z.of_nat (String.length s);
     str_lower := lower |}.

(** A line from (8, 0) to its antipode (-8, 180), and a body that holds
    it. *)
Definition antipodal_line : GeoLine :=
  {| line_id := "far";
     line_coordinates :=
       [ {| latitude := 8; longitude := 0; altitude := None |};
         {| latitude := -8; longitude := 180; altitude := None |} ];
     line_properties := ∅; length_m := None; line_created_at := 5 |}.
Definition request_with_antipodal_line : ProjectGeoData :=
  {| project_id := "p"; points := [point_a]; polygons := []; lines := [antipodal_line];
     bounds := None; center := None |}.

(** A storage whose file for ["p"] holds one point and whose cache is
    empty. *)
Definition storage_with_file : GeoDataStorage.t :=
  GeoDataStorage.init
    {[ "p" := JsonRecord (set_points [point_a] (new_ProjectGeoData "p")) "2024-01-01T00:00:00" ]}.

(** ** Tactics *)

(** The comparison of two mantissas, as [Pos.compare]. *)
Ltac fold_compare :=
  repeat match goal with
  | |- context [PosDef.Pos.compare_cont Eq ?a ?b] =>
      change (PosDef.Pos.compare_cont Eq a b) with (Pos.compare a b)
  end.

(** Case analysis on every comparison of exponents and mantissas. *)
Ltac order_cases :=
  repeat match goal with
  | |- context [Z.compare ?a ?b] => destruct (Z.compare_spec a b)
  | H : context [Z.compare ?a ?b] |- _ => destruct (Z.compare_spec a b)
  | |- context [Pos.compare ?a ?b] => destruct (Pos.compare_spec a b)
  | H : context [Pos.compare ?a ?b] |- _ => destruct (Pos.compare_spec a b)
  end.

(** ** Basic facts *)


Lemma outcome_bind_Returned {A B} (f : A → outcome B) (o : outcome A) (b : B) :
  o ≫= f = Returned b → ∃ a, o = Returned a ∧ f a = Returned b.
Proof. destruct o as [a|e]; simpl; [eauto | discriminate]. Qed.

Lemma mapM_Returned {A B} (f : A → outcome B) (l : list A) (k : list B) :
  mapM f l = Returned k → Forall2 (λ x y, f x = Returned y) l k.
Proof.
  revert k. induction l as [|x l IH]; intros k; simpl.
  - intros [= <-]. constructor.
  - intros H. apply outcome_bind_Returned in H as (y & Hy & H).
    apply outcome_bind_Returned in H as (k' & Hk' & H).
    injection H as <-. constructor; auto.
Qed.

(** ** GeometryService.calculate_bounds *)

(** C3, counterexample: on the empty sequence [calculate_bounds] returns a
    value, the empty dictionary [{}]; nothing is raised. *)
Lemma calculate_bounds_of_nothing_returns :
  GeometryService.calculate_bounds [] = ∅.
Proof. reflexivity. Qed.

(** C3, as amended: [calculate_bounds] returns the empty dictionary (no
    north, south, east or west key) exactly on the empty sequence, instead
    of failing; on a non-empty sequence it returns the four extremes. *)
Theorem calculate_bounds_empty_dict (coordinates : list Coordinates) :
  (GeometryService.calculate_bounds coordinates = ∅ ↔ coordinates = []) ∧
  (∀ c cs, coordinates = c :: cs →
     let b := GeometryService.calculate_bounds coordinates in
     b !! "north" = Some (py_max (latitude c) (map latitude cs)) ∧
     b !! "south" = Some (py_min (latitude c) (map latitude cs)) ∧
     b !! "east" = Some (py_max (longitude c) (map longitude cs)) ∧
     b !! "west" = Some (py_min (longitude c) (map longitude cs))).
Proof.
  split.
  - destruct coordinates as [|c cs]; simpl.
    + done.
    + split; [|done]. intros H. by apply insert_non_empty in H.
  - intros c cs ->. simpl. by simplify_map_eq.
Qed.

Example calculate_bounds_two_points :
  GeometryService.calculate_bounds
    [ {| latitude := 1; longitude := 20; altitude := None |};
      {| latitude := 3; longitude := 10; altitude := None |} ]
  = {[ "north" := 3%float; "south" := 1%float;
       "east" := 20%float; "west" := 10%float ]}.
Proof. vm_compute. reflexivity. Qed.

(** ** GeometryService.calculate_center *)


Example calculate_center_two_points :
  GeometryService.calculate_center
    [ {| latitude := 1; longitude := 20; altitude := None |};
      {| latitude := 3; longitude := 10; altitude := None |} ]
  = {| latitude := 2; longitude := 15; altitude := None |}.
Proof. vm_compute. reflexivity. Qed.

(** ** GeoDataStorage and the save and delete endpoints *)

Section Endpoint_facts.
Context {M : Math}.

(** What a returning [recompute_derived] has done: the members are the
    request's, each polygon and line went through its recomputation, and
    bounds and center are set only when there is a coordinate. *)
Lemma recompute_derived_Returned (geodata derived : ProjectGeoData) :
  recompute_derived geodata = Returned derived →
  project_id derived = project_id geodata ∧
  points derived = points geodata ∧
  Forall2 (λ q q', recompute_polygon q = Returned q') (polygons geodata) (polygons derived) ∧
  Forall2 (λ l l', recompute_line l = Returned l') (lines geodata) (lines derived) ∧
  match all_coordinates geodata with
  | [] => bounds derived = bounds geodata ∧ center derived = center geodata
  | _ :: _ =>
      bounds derived = Some (GeometryService.calculate_bounds (all_coordinates geodata)) ∧
      center derived = Some (GeometryService.calculate_center (all_coordinates geodata))
  end.
Proof.
  unfold recompute_derived. intros H.
  apply outcome_bind_Returned in H as (qs & Hqs & H).
  apply outcome_bind_Returned in H as (ls & Hls & H).
  apply mapM_Returned in Hqs. apply mapM_Returned in Hls.
  injection H as <-.
  destruct (all_coordinates geodata); repeat split; done.
Qed.

(** C6: when the write of a save fails (at [open], or later at
    [json.dumps] or [f.write]), the storage method reports failure and
    its cache is what it was; the endpoint raises instead of answering
    success (HTTP 500 once the derived fields are computed) and the cache
    is what it was. *)
Theorem save_failure_keeps_cache (env : Env) (pid : string)
    (geodata : ProjectGeoData) (storage : GeoDataStorage.t) :
  env_write env ≠ WriteOk →
  (∃ storage',
     GeoDataStorage.save_project_geodata env pid geodata storage = (false, storage') ∧
     GeoDataStorage.projects storage' = GeoDataStorage.projects storage) ∧
  (∃ e storage',
     save_project_geodata env pid geodata storage = (Raised e, storage') ∧
     GeoDataStorage.projects storage' = GeoDataStorage.projects storage ∧
     (∀ derived, recompute_derived (set_project_id pid geodata) = Returned derived →
        e = HTTPException 500 "Ошибка сохранения геоданных")).
Proof.
  intros Hw. split.
  - unfold GeoDataStorage.save_project_geodata.
    destruct (env_write env); [done | eauto | eauto].
  - unfold save_project_geodata.
    destruct (recompute_derived (set_project_id pid geodata)) as [derived|e].
    + unfold GeoDataStorage.save_project_geodata.
      destruct (env_write env); [done | |]; simpl;
        eexists _, _; (split; [reflexivity|]); split; try done;
        intros ? [= <-]; done.
    + eexists _, _. split; [reflexivity|]. split; [done|]. intros ? [=].
Qed.

(** C10: when the save endpoint answers success for the path parameter
    [pid], the aggregate in the cache and the one in the file are the same
    aggregate and its [project_id] is [pid], whatever the body carried. *)
Theorem save_stores_path_project_id (env : Env) (pid : string)
    (geodata : ProjectGeoData) (storage storage' : GeoDataStorage.t) (r : json) :
  save_project_geodata env pid geodata storage = (Returned r, storage') →
  ∃ stored,
    GeoDataStorage.projects storage' !! pid = Some stored ∧
    GeoDataStorage.data_dir storage' !! pid = Some (JsonRecord stored (env_now env)) ∧
    project_id stored = pid.
Proof.
  unfold save_project_geodata.
  destruct (recompute_derived (set_project_id pid geodata)) as [derived|e] eqn:Hd;
    [|intros [=]].
  apply recompute_derived_Returned in Hd as (Hid & _).
  unfold GeoDataStorage.save_project_geodata.
  destruct (env_write env); simpl; intros [= <- <-].
  exists derived. simpl. by rewrite !lookup_insert_eq.
Qed.
End Endpoint_facts.

(** C6 at work: project ["p"] is cached, the write of a new body fails,
    the endpoint answers HTTP 500 and the cache still holds the old
    aggregate. *)
Lemma save_failure_keeps_cache_witness :
  env_write env_write_fails ≠ WriteOk ∧
  ∃ storage',
    save_project_geodata (M := small_angle_math) env_write_fails "p" body_other_id
      storage_with_p
    = (Raised (HTTPException 500 "Ошибка сохранения геоданных"), storage') ∧
    GeoDataStorage.projects storage' !! "p" = Some (new_ProjectGeoData "p").
Proof.
  split; [discriminate|].
  destruct (save_failure_keeps_cache (M := small_angle_math) env_write_fails "p"
              body_other_id storage_with_p) as [_ (e & storage' & Hrun & Hcache & He)];
    [discriminate|].
  exists storage'. rewrite Hrun, Hcache, (He _ eq_refl). split; reflexivity.
Defined.

(** C10 at work: the body says ["other"], the path says ["p"], and the
    stored aggregate says ["p"]. *)
Lemma save_stores_path_project_id_witness :
  ∃ stored,
    GeoDataStorage.projects
      (save_project_geodata (M := small_angle_math) env_ok "p" body_other_id
         (GeoDataStorage.init ∅)).2 !! "p" = Some stored ∧
    project_id body_other_id = "other" ∧ project_id stored = "p".
Proof.
  destruct (save_stores_path_project_id (M := small_angle_math) env_ok "p"
              body_other_id (GeoDataStorage.init ∅) _ _ eq_refl)
    as (stored & Hcache & _ & Hid).
  exists stored. simpl in *. auto.
Defined.



(** ** add_project_point *)





(** ** save_project_geodata followed by load_project_geodata *)


Section Round_trip.
Context {M : Math}.





End Round_trip.


(** ** export_project_geodata *)

(** C8, counterexample: the polygon's [area_sqm] is 12.5, its own
    [properties] have an ["area_sqm"] entry, and the exported feature
    carries that entry, not the polygon's [area_sqm]. *)
Lemma export_area_sqm_overridden :
  ∃ gj feature,
    (export_project_geodata env_ok "p" "geojson" storage_with_q).1 = Returned gj ∧
    json_get "features" gj
      = Some (JList [point_feature point_a; feature]) ∧
    area_sqm polygon_with_area_property = Some 12.5%float ∧
    json_get "properties" feature ≫= json_get "area_sqm" = Some (JStr "unknown") ∧
    json_get "properties" feature ≫= json_get "area_sqm"
      ≠ Some (json_of_optional_float (area_sqm polygon_with_area_property)).
Proof.
  eexists _, _. split; [reflexivity|]. split; [reflexivity|].
  split; [reflexivity|]. split; [reflexivity|]. discriminate.
Qed.

Lemma point_feature_coordinates (point : GeoPoint) :
  json_get "geometry" (point_feature point) ≫= json_get "coordinates"
  = Some (JList [JNum (longitude (point_coordinates point));
                 JNum (latitude (point_coordinates point))]).
Proof. reflexivity. Qed.

Lemma polygon_feature_properties (polygon : GeoPolygon) :
  json_get "properties" (polygon_feature polygon)
  = Some (JDict (polygon_properties polygon
                 ∪ {[ "id" := JStr (polygon_id polygon);
                      "area_sqm" := json_of_optional_float (area_sqm polygon) ]})).
Proof. reflexivity. Qed.

(** C8, as amended: a successful GeoJSON export lists one feature per
    point, polygon and line, in that order.  The feature of every point
    has the coordinates [longitude, latitude].  The properties of the
    feature of every polygon have an ["area_sqm"] key; its value is the
    polygon's [area_sqm], unless the polygon's own [properties] have an
    ["area_sqm"] entry, which then takes its place. *)
Theorem export_geojson_features (env : Env) (pid format : string)
    (storage storage' : GeoDataStorage.t) (gj : json) :
  export_project_geodata env pid format storage = (Returned gj, storage') →
  ∃ geodata,
    GeoDataStorage.load_project_geodata env pid storage = (Some geodata, storage') ∧
    json_get "features" gj = Some (JList (features geodata)) ∧
    (∀ i point, points geodata !! i = Some point →
       ∃ feature, features geodata !! i = Some feature ∧
         json_get "geometry" feature ≫= json_get "coordinates"
         = Some (JList [JNum (longitude (point_coordinates point));
                        JNum (latitude (point_coordinates point))])) ∧
    (∀ j polygon, polygons geodata !! j = Some polygon →
       ∃ feature properties,
         features geodata !! (length (points geodata) + j) = Some feature ∧
         json_get "properties" feature = Some (JDict properties) ∧
         is_Some (properties !! "area_sqm") ∧
         (polygon_properties polygon !! "area_sqm" = None →
            properties !! "area_sqm" = Some (json_of_optional_float (area_sqm polygon))) ∧
         (∀ v, polygon_properties polygon !! "area_sqm" = Some v →
            properties !! "area_sqm" = Some v)).
Proof.
  unfold export_project_geodata.
  destruct (GeoDataStorage.load_project_geodata env pid storage) as [[geodata|] st] eqn:Hload;
    [|intros [=]].
  case_decide; intros [= <- <-].
  exists geodata. split; [done|]. split; [reflexivity|]. split.
  - intros i point Hi. exists (point_feature point). split.
    + unfold features. rewrite lookup_app_l.
      * by rewrite list_lookup_fmap, Hi.
      * rewrite length_map. by eapply lookup_lt_Some.
    + apply point_feature_coordinates.
  - intros j polygon Hj. eexists (polygon_feature polygon), _. split; [|split].
    + unfold features. rewrite lookup_app_r; rewrite length_map; [|lia].
      replace (length (points geodata) + j - length (points geodata)) with j by lia.
      rewrite lookup_app_l.
      * by rewrite list_lookup_fmap, Hj.
      * rewrite length_map. by eapply lookup_lt_Some.
    + apply polygon_feature_properties.
    + split; [|split].
      * destruct (polygon_properties polygon !! "area_sqm") as [v|] eqn:Hown.
        -- exists v. by apply lookup_union_Some_l.
        -- eexists. rewrite lookup_union_r by done. by simplify_map_eq.
      * intros Hown. rewrite lookup_union_r by done. by simplify_map_eq.
      * intros v Hown. by apply lookup_union_Some_l.
Qed.

(** C8 at work: the first feature exported for [storage_with_q] is the
    one of [point_a], at (55.75, 37.5), and its coordinates read
    [37.5, 55.75]. *)
Lemma export_geojson_features_witness :
  ∃ gj feature,
    export_project_geodata env_ok "p" "GeoJSON" storage_with_q = (Returned gj, storage_with_q) ∧
    json_get "features" gj ≫= (λ fs, match fs with JList l => l !! 0 | _ => None end)
      = Some feature ∧
    json_get "geometry" feature ≫= json_get "coordinates"
      = Some (JList [JNum 37.5%float; JNum 55.75%float]).
Proof.
  destruct (export_geojson_features env_ok "p" "GeoJSON" storage_with_q storage_with_q _ eq_refl)
    as (geodata & Hload & Hfeatures & Hpoints & _).
  injection Hload as <-.
  destruct (Hpoints 0 point_a eq_refl) as (feature & Hfeature & Hcoordinates).
  eexists _, feature. split; [reflexivity|]. split; [|exact Hcoordinates].
  simpl. exact Hfeature.
Defined.

(** ** GeometryService.haversine_distance *)

(** C4: the antipodal pair (8, 0) and (-8, 180).  The haversine term is
    [sin(-8 deg)^2 + cos(8 deg) * cos(-8 deg) * sin(90 deg)^2], which is 1
    in exact arithmetic; with correctly rounded [sin] and [cos] the
    binary64 sum is [1 + 2^-52], so [math.sqrt(1 - a)] is called on a
    negative number and the function raises instead of returning a
    distance. *)
Theorem haversine_distance_antipodal_raises (M : Math) :
  correctly_rounded_at_antipode M →
  GeometryService.haversine_distance 8 0 (-8) 180
  = Raised (ValueError "math domain error").
Proof.
  intros (Hs1 & Hp1 & Hc1 & Hc2 & Hs2 & Hp2).
  unfold GeometryService.haversine_distance.
  replace (math_radians (-8 - 8) / 2)%float with (-0x1.1df46a2529d39p-3)%float
    by (vm_compute; reflexivity).
  replace (math_radians 8) with 0x1.1df46a2529d39p-3%float by (vm_compute; reflexivity).
  replace (math_radians (-8)) with (-0x1.1df46a2529d39p-3)%float by (vm_compute; reflexivity).
  replace (math_radians (180 - 0) / 2)%float with 0x1.921fb54442d18p+0%float
    by (vm_compute; reflexivity).
  rewrite Hs1. simpl. rewrite Hp1. simpl. rewrite Hc1. simpl. rewrite Hc2. simpl.
  rewrite Hs2. simpl. rewrite Hp2. simpl.
  vm_compute. reflexivity.
Qed.

(** C4 at work: both coordinates pass the validators, and with the
    tabulated [math] module the call raises. *)
Lemma haversine_distance_antipodal_raises_witness :
  Coordinates_valid {| latitude := 8; longitude := 0; altitude := None |} = true ∧
  Coordinates_valid {| latitude := -8; longitude := 180; altitude := None |} = true ∧
  GeometryService.haversine_distance (M := tabulated_math) 8 0 (-8) 180
  = Raised (ValueError "math domain error").
Proof.
  split; [reflexivity|]. split; [reflexivity|].
  apply (haversine_distance_antipodal_raises tabulated_math).
  repeat split; reflexivity.
Defined.

(** ** GeometryService.calculate_polygon_area *)





Lemma fold_left_ext_in {A B} (f g : A → B → A) (l : list B) (a : A) :
  (∀ a x, x ∈ l → f a x = g a x) → fold_left f l a = fold_left g l a.
Proof.
  revert a. induction l as [|x l IH]; intros a Hfg; [done|]. simpl.
  rewrite Hfg by left. apply IH. intros. apply Hfg. by right.
Qed.

(** The code computes the binary64 instance of the formula. *)
Lemma calculate_polygon_area_formula {M : Math} (coordinates : list Coordinates) :
  GeometryService.calculate_polygon_area coordinates
  = polygon_area_formula binary64_floats (map lat_lon coordinates).
Proof.
  unfold GeometryService.calculate_polygon_area, polygon_area_formula.
  rewrite length_map. destruct (length coordinates <? 3); [done|]. simpl.
  rewrite map_map. simpl.
  replace (fold_left (formula_step binary64_floats (map lat_lon coordinates)
                        (length coordinates)) (seq 0 (length coordinates)) 0%float)
    with (fold_left (GeometryService.shoelace_step coordinates (length coordinates))
            (seq 0 (length coordinates)) 0%float); [done|].
  apply fold_left_ext_in. intros area i _.
  unfold GeometryService.shoelace_step, formula_step.
  rewrite !list_lookup_fmap.
  by destruct (coordinates !! i), (coordinates !! ((i + 1) mod length coordinates)).
Qed.

Section Exact_facts.
Local Open Scope R_scope.












End Exact_facts.

(** * Further properties of the service *)

(** ** GeoDataStorage: what a caller can rely on *)

Lemma load_cached (env : Env) (pid : string) (cached : ProjectGeoData)
    (storage : GeoDataStorage.t) :
  GeoDataStorage.projects storage !! pid = Some cached →
  GeoDataStorage.load_project_geodata env pid storage = (Some cached, storage).
Proof. intros H. unfold GeoDataStorage.load_project_geodata. by rewrite H. Qed.

Lemma load_unknown (env : Env) (pid : string) (storage : GeoDataStorage.t) :
  GeoDataStorage.projects storage !! pid = None →
  GeoDataStorage.data_dir storage !! pid = None →
  GeoDataStorage.load_project_geodata env pid storage = (None, storage).
Proof.
  intros Hcache Hfile. unfold GeoDataStorage.load_project_geodata.
  by rewrite Hcache, Hfile.
Qed.

(** X1: read-your-writes.  Once a save has gone through, a load of the
    same project returns exactly the saved aggregate, from the cache:
    whatever the file system does during the load, and without changing
    the storage. *)
Theorem save_then_load_cached (env env' : Env) (pid : string)
    (geodata : ProjectGeoData) (storage : GeoDataStorage.t) :
  env_write env = WriteOk →
  ∃ storage1,
    GeoDataStorage.save_project_geodata env pid geodata storage = (true, storage1) ∧
    GeoDataStorage.load_project_geodata env' pid storage1 = (Some geodata, storage1).
Proof.
  intros Hw. unfold GeoDataStorage.save_project_geodata. rewrite Hw.
  eexists. split; [reflexivity|].
  apply load_cached. simpl. by rewrite lookup_insert_eq.
Qed.

Lemma save_then_load_cached_witness :
  ∃ storage1,
    GeoDataStorage.save_project_geodata env_ok "p" stale_request (GeoDataStorage.init ∅)
      = (true, storage1) ∧
    GeoDataStorage.load_project_geodata env_no_access "p" storage1
      = (Some stale_request, storage1).
Proof. exact (save_then_load_cached env_ok env_no_access "p" stale_request _ eq_refl). Defined.

(** X2: a saved aggregate survives a restart.  A new storage object over
    the files a successful save left behind starts with an empty cache;
    its first load of the project reads the file, returns the saved
    aggregate and caches it; without read access it finds nothing. *)
Theorem save_restart_load (env env' : Env) (pid : string)
    (geodata : ProjectGeoData) (storage : GeoDataStorage.t) :
  env_write env = WriteOk →
  let files :=
    GeoDataStorage.data_dir (GeoDataStorage.save_project_geodata env pid geodata storage).2 in
  GeoDataStorage.load_project_geodata env' pid (GeoDataStorage.init files)
  = if env_read env'
    then (Some geodata,
          {| GeoDataStorage.projects := {[ pid := geodata ]};
             GeoDataStorage.data_dir := files |})
    else (None, GeoDataStorage.init files).
Proof.
  intros Hw. unfold GeoDataStorage.save_project_geodata. rewrite Hw. simpl.
  unfold GeoDataStorage.load_project_geodata. simpl.
  rewrite lookup_empty, lookup_insert_eq.
  destruct (env_read env'); [|done]. by rewrite insert_empty.
Qed.

Lemma save_restart_load_witness :
  (GeoDataStorage.load_project_geodata env_ok "p"
     (GeoDataStorage.init
        (GeoDataStorage.data_dir
           (GeoDataStorage.save_project_geodata env_ok "p" stale_request
              (GeoDataStorage.init ∅)).2))).1
  = Some stale_request.
Proof.
  rewrite (save_restart_load env_ok env_ok "p" stale_request (GeoDataStorage.init ∅) eq_refl).
  reflexivity.
Defined.

(** X3: a write that fails after [open] costs the record already on
    disk.  The file was truncated by [open(..., 'w')], so it no longer
    parses: the running storage still serves what its cache holds, but a
    restarted one finds no project, whatever the file held before. *)
Theorem failed_write_loses_stored_record (env env' : Env) (pid : string)
    (geodata : ProjectGeoData) (storage : GeoDataStorage.t) :
  env_write env = WriteFails →
  ∃ storage1,
    GeoDataStorage.save_project_geodata env pid geodata storage = (false, storage1) ∧
    GeoDataStorage.projects storage1 = GeoDataStorage.projects storage ∧
    GeoDataStorage.data_dir storage1 !! pid = Some Unreadable ∧
    GeoDataStorage.load_project_geodata env' pid
      (GeoDataStorage.init (GeoDataStorage.data_dir storage1))
    = (None, GeoDataStorage.init (GeoDataStorage.data_dir storage1)).
Proof.
  intros Hw. unfold GeoDataStorage.save_project_geodata. rewrite Hw.
  eexists. split; [reflexivity|]. simpl. split; [done|].
  rewrite lookup_insert_eq. split; [done|].
  unfold GeoDataStorage.load_project_geodata. simpl.
  rewrite lookup_empty, lookup_insert_eq. by destruct (env_read env').
Qed.

Lemma failed_write_loses_stored_record_witness :
  GeoDataStorage.data_dir storage_with_p !! "p"
    = Some (JsonRecord (new_ProjectGeoData "p") "2024-01-01T00:00:00") ∧
  ∃ storage1,
    GeoDataStorage.save_project_geodata env_write_fails "p" stale_request storage_with_p
      = (false, storage1) ∧
    GeoDataStorage.load_project_geodata env_ok "p"
      (GeoDataStorage.init (GeoDataStorage.data_dir storage1))
    = (None, GeoDataStorage.init (GeoDataStorage.data_dir storage1)).
Proof.
  split; [reflexivity|].
  destruct (failed_write_loses_stored_record env_write_fails env_ok "p" stale_request
              storage_with_p eq_refl) as (storage1 & Hsave & _ & _ & Hload).
  exists storage1. auto.
Defined.

(** X4: a load that finds the project leaves it cached and the files as
    they were, so that the next load gives the same aggregate without the
    disk (and without seeing what was written to the file meanwhile by
    anyone else). *)
Theorem load_then_load (env env' : Env) (pid : string) (geodata : ProjectGeoData)
    (storage storage1 : GeoDataStorage.t) :
  GeoDataStorage.load_project_geodata env pid storage = (Some geodata, storage1) →
  GeoDataStorage.projects storage1 !! pid = Some geodata ∧
  GeoDataStorage.data_dir storage1 = GeoDataStorage.data_dir storage ∧
  GeoDataStorage.load_project_geodata env' pid storage1 = (Some geodata, storage1).
Proof.
  unfold GeoDataStorage.load_project_geodata at 1.
  destruct (GeoDataStorage.projects storage !! pid) as [cached|] eqn:Hcache.
  - intros [= <- <-]. split; [done|]. split; [done|]. by apply load_cached.
  - destruct (GeoDataStorage.data_dir storage !! pid) as [[g stamp|]|]; [| |intros [=]].
    + destruct (env_read env); intros [= <- <-].
      split; [by simpl; rewrite lookup_insert_eq|]. split; [done|].
      apply load_cached. simpl. by rewrite lookup_insert_eq.
    + by destruct (env_read env).
Qed.

Lemma load_then_load_witness :
  ∃ storage1,
    GeoDataStorage.load_project_geodata env_ok "p" storage_with_file
    = (Some (set_points [point_a] (new_ProjectGeoData "p")), storage1) ∧
    GeoDataStorage.load_project_geodata env_no_access "p" storage1
    = (Some (set_points [point_a] (new_ProjectGeoData "p")), storage1).
Proof.
  eexists. split; [reflexivity|].
  exact (proj2 (proj2 (load_then_load env_ok env_no_access "p" _ storage_with_file
                         _ eq_refl))).
Defined.

(** X5: a project that is neither cached nor on disk is not found: the
    load returns [None] (no empty aggregate is made up), the storage is
    unchanged, and the GET endpoint and the export answer HTTP 404,
    whatever the export format asked for. *)
Theorem load_of_unknown_project (env : Env) (pid format : string)
    (storage : GeoDataStorage.t) :
  GeoDataStorage.projects storage !! pid = None →
  GeoDataStorage.data_dir storage !! pid = None →
  GeoDataStorage.load_project_geodata env pid storage = (None, storage) ∧
  get_project_geodata env pid storage
    = (Raised (HTTPException 404 "Геоданные проекта не найдены"), storage) ∧
  export_project_geodata env pid format storage
    = (Raised (HTTPException 404 "Геоданные проекта не найдены"), storage).
Proof.
  intros Hcache Hfile.
  pose proof (load_unknown env pid storage Hcache Hfile) as Hload.
  unfold get_project_geodata, export_project_geodata. by rewrite Hload.
Qed.

Lemma load_of_unknown_project_witness :
  get_project_geodata env_ok "missing" storage_with_p
  = (Raised (HTTPException 404 "Геоданные проекта не найдены"), storage_with_p).
Proof.
  exact (proj1 (proj2 (load_of_unknown_project env_ok "missing" "geojson" storage_with_p
                         eq_refl eq_refl))).
Defined.



(** X7: a delete whose [unlink] fails is reported (HTTP 500) and undoes
    nothing: the file is still there and, the eviction being skipped, so
    is the cache entry; the project loads as before. *)
Theorem failed_unlink_keeps_project (env env' : Env) (pid : string)
    (storage : GeoDataStorage.t) (file : stored_file) (cached : ProjectGeoData) :
  GeoDataStorage.data_dir storage !! pid = Some file →
  GeoDataStorage.projects storage !! pid = Some cached →
  env_unlink env = false →
  delete_project_geodata env pid storage
    = (Raised (HTTPException 500 "Ошибка удаления геоданных"), storage) ∧
  GeoDataStorage.load_project_geodata env' pid storage = (Some cached, storage).
Proof.
  intros Hfile Hcache Hunlink. split.
  - unfold delete_project_geodata, GeoDataStorage.delete_project_geodata.
    by rewrite Hfile, Hunlink.
  - by apply load_cached.
Qed.

Lemma failed_unlink_keeps_project_witness :
  delete_project_geodata env_no_access "p" storage_with_p
    = (Raised (HTTPException 500 "Ошибка удаления геоданных"), storage_with_p) ∧
  GeoDataStorage.load_project_geodata env_no_access "p" storage_with_p
    = (Some (new_ProjectGeoData "p"), storage_with_p).
Proof.
  exact (failed_unlink_keeps_project env_no_access env_no_access "p" storage_with_p _ _
           eq_refl eq_refl eq_refl).
Defined.

(** ** Every request stays within its project *)

Lemma same_elsewhere_refl (pid : string) (st : GeoDataStorage.t) : same_elsewhere pid st st.
Proof. by intros pid' _. Qed.

Lemma same_elsewhere_trans (pid : string) (st1 st2 st3 : GeoDataStorage.t) :
  same_elsewhere pid st1 st2 → same_elsewhere pid st2 st3 → same_elsewhere pid st1 st3.
Proof.
  intros H12 H23 pid' Hne. destruct (H12 pid' Hne) as [<- <-]. by apply H23.
Qed.

Lemma save_same_elsewhere (env : Env) (pid : string) (geodata : ProjectGeoData)
    (st : GeoDataStorage.t) :
  same_elsewhere pid st (GeoDataStorage.save_project_geodata env pid geodata st).2.
Proof.
  intros pid' Hne. unfold GeoDataStorage.save_project_geodata.
  destruct (env_write env); simpl; by rewrite ?lookup_insert_ne.
Qed.

Lemma load_same_elsewhere (env : Env) (pid : string) (st : GeoDataStorage.t) :
  same_elsewhere pid st (GeoDataStorage.load_project_geodata env pid st).2.
Proof.
  intros pid' Hne. unfold GeoDataStorage.load_project_geodata.
  destruct (GeoDataStorage.projects st !! pid); [done|].
  destruct (GeoDataStorage.data_dir st !! pid) as [[g stamp|]|]; [| |done].
  - destruct (env_read env); simpl; by rewrite ?lookup_insert_ne.
  - by destruct (env_read env).
Qed.

Lemma delete_same_elsewhere (env : Env) (pid : string) (st : GeoDataStorage.t) :
  same_elsewhere pid st (GeoDataStorage.delete_project_geodata env pid st).2.
Proof.
  intros pid' Hne. unfold GeoDataStorage.delete_project_geodata.
  destruct (GeoDataStorage.data_dir st !! pid); [destruct (env_unlink env)|];
    simpl; by rewrite ?lookup_delete_ne.
Qed.

Lemma mutate_cached_same_elsewhere (pid : string) (geodata : ProjectGeoData)
    (st : GeoDataStorage.t) :
  same_elsewhere pid st (GeoDataStorage.mutate_cached pid geodata st).
Proof. intros pid' Hne. simpl. by rewrite lookup_insert_ne. Qed.

Section Frame.
Context {M : Math}.

(** X8: isolation of projects.  Whatever a request for project [pid]
    does (save, delete, append a point or a polygon, read, export) and
    however it ends, the cache entries and the files of every other
    project are what they were. *)
Theorem requests_leave_other_projects (env : Env) (pid format : string)
    (geodata : ProjectGeoData) (point : GeoPoint) (polygon : GeoPolygon)
    (storage : GeoDataStorage.t) :
  same_elsewhere pid storage (save_project_geodata env pid geodata storage).2 ∧
  same_elsewhere pid storage (delete_project_geodata env pid storage).2 ∧
  same_elsewhere pid storage (add_project_point env pid point storage).2 ∧
  same_elsewhere pid storage (add_project_polygon env pid polygon storage).2 ∧
  same_elsewhere pid storage (get_project_geodata env pid storage).2 ∧
  same_elsewhere pid storage (export_project_geodata env pid format storage).2.
Proof.
  split_and!.
  - unfold save_project_geodata.
    destruct (recompute_derived _) as [derived|e]; [|apply same_elsewhere_refl].
    pose proof (save_same_elsewhere env pid derived storage) as H.
    destruct (GeoDataStorage.save_project_geodata env pid derived storage) as [[] st'];
      exact H.
  - unfold delete_project_geodata.
    pose proof (delete_same_elsewhere env pid storage) as H.
    destruct (GeoDataStorage.delete_project_geodata env pid storage) as [[] st']; exact H.
  - unfold add_project_point.
    pose proof (load_same_elsewhere env pid storage) as Hload.
    destruct (GeoDataStorage.load_project_geodata env pid storage) as [loaded st1].
    simpl in Hload.
    destruct loaded as [g|].
    + pose proof (save_same_elsewhere env pid (set_points (points g ++ [point]) g)
                    (GeoDataStorage.mutate_cached pid (set_points (points g ++ [point]) g) st1))
        as Hsave.
      destruct (GeoDataStorage.save_project_geodata _ _ _ _) as [[] st2]; simpl in *;
        (eapply same_elsewhere_trans; [exact Hload|]);
        (eapply same_elsewhere_trans; [apply mutate_cached_same_elsewhere|exact Hsave]).
    + pose proof (save_same_elsewhere env pid (set_points [point] (new_ProjectGeoData pid)) st1)
        as Hsave.
      destruct (GeoDataStorage.save_project_geodata _ _ _ _) as [[] st2]; simpl in *;
        (eapply same_elsewhere_trans; [exact Hload|exact Hsave]).
  - unfold add_project_polygon.
    pose proof (load_same_elsewhere env pid storage) as Hload.
    destruct (GeoDataStorage.load_project_geodata env pid storage) as [loaded st1].
    simpl in Hload.
    destruct (recompute_polygon polygon) as [polygon'|e]; [|exact Hload].
    destruct loaded as [g|].
    + pose proof (save_same_elsewhere env pid (set_polygons (polygons g ++ [polygon']) g)
                    (GeoDataStorage.mutate_cached pid
                       (set_polygons (polygons g ++ [polygon']) g) st1)) as Hsave.
      destruct (GeoDataStorage.save_project_geodata _ _ _ _) as [[] st2]; simpl in *;
        (eapply same_elsewhere_trans; [exact Hload|]);
        (eapply same_elsewhere_trans; [apply mutate_cached_same_elsewhere|exact Hsave]).
    + pose proof (save_same_elsewhere env pid
                    (set_polygons [polygon'] (new_ProjectGeoData pid)) st1) as Hsave.
      destruct (GeoDataStorage.save_project_geodata _ _ _ _) as [[] st2]; simpl in *;
        (eapply same_elsewhere_trans; [exact Hload|exact Hsave]).
  - unfold get_project_geodata.
    pose proof (load_same_elsewhere env pid storage) as Hload.
    destruct (GeoDataStorage.load_project_geodata env pid storage) as [[g|] st1]; exact Hload.
  - unfold export_project_geodata.
    pose proof (load_same_elsewhere env pid storage) as Hload.
    destruct (GeoDataStorage.load_project_geodata env pid storage) as [[g|] st1];
      [case_decide|]; exact Hload.
Qed.
End Frame.

(** ** Every aggregate is filed under its own project id *)

Lemma save_keys_match (env : Env) (pid : string) (geodata : ProjectGeoData)
    (st : GeoDataStorage.t) :
  project_id geodata = pid → keys_match st →
  keys_match (GeoDataStorage.save_project_geodata env pid geodata st).2.
Proof.
  intros Hid [Hcache Hfiles]. unfold GeoDataStorage.save_project_geodata.
  destruct (env_write env); simpl; [|done|].
  - split; simpl; by apply map_Forall_insert_2.
  - split; simpl; [done|]. by apply map_Forall_insert_2.
Qed.

Lemma load_keys_match (env : Env) (pid : string) (st : GeoDataStorage.t) :
  keys_match st →
  keys_match (GeoDataStorage.load_project_geodata env pid st).2 ∧
  ∀ g, (GeoDataStorage.load_project_geodata env pid st).1 = Some g → project_id g = pid.
Proof.
  intros [Hcache Hfiles]. unfold GeoDataStorage.load_project_geodata.
  destruct (GeoDataStorage.projects st !! pid) as [cached|] eqn:Hc.
  { split; [done|]. intros g [= <-]. exact (Hcache _ _ Hc). }
  destruct (GeoDataStorage.data_dir st !! pid) as [[g0 stamp|]|] eqn:Hf.
  - pose proof (Hfiles _ _ Hf) as Hid. simpl in Hid.
    destruct (env_read env); simpl.
    + split; [|by intros g [= <-]].
      split; simpl; [by apply map_Forall_insert_2|done].
    + by split.
  - by destruct (env_read env).
  - by split.
Qed.

Lemma delete_keys_match (env : Env) (pid : string) (st : GeoDataStorage.t) :
  keys_match st → keys_match (GeoDataStorage.delete_project_geodata env pid st).2.
Proof.
  intros [Hcache Hfiles]. unfold GeoDataStorage.delete_project_geodata.
  destruct (GeoDataStorage.data_dir st !! pid); [destruct (env_unlink env)|]; simpl;
    try done; split; simpl; try done; by apply map_Forall_delete.
Qed.

Lemma mutate_cached_keys_match (pid : string) (geodata : ProjectGeoData)
    (st : GeoDataStorage.t) :
  project_id geodata = pid → keys_match st →
  keys_match (GeoDataStorage.mutate_cached pid geodata st).
Proof. intros Hid [Hcache Hfiles]. split; simpl; [by apply map_Forall_insert_2|done]. Qed.

Section Keys.
Context {M : Math}.

(** X9: in a storage all of whose aggregates carry the id they are filed
    under (an empty one, for a start), every aggregate still does after
    any request, however the request ends; and what [GET] returns for
    project [pid] says [project_id = pid]. *)
Theorem requests_keep_keys_match (env : Env) (pid format : string)
    (geodata : ProjectGeoData) (point : GeoPoint) (polygon : GeoPolygon)
    (storage : GeoDataStorage.t) :
  keys_match storage →
  keys_match (save_project_geodata env pid geodata storage).2 ∧
  keys_match (delete_project_geodata env pid storage).2 ∧
  keys_match (add_project_point env pid point storage).2 ∧
  keys_match (add_project_polygon env pid polygon storage).2 ∧
  keys_match (get_project_geodata env pid storage).2 ∧
  keys_match (export_project_geodata env pid format storage).2 ∧
  ∀ g, (get_project_geodata env pid storage).1 = Returned g → project_id g = pid.
Proof.
  intros Hkeys.
  destruct (load_keys_match env pid storage Hkeys) as [Hload Hloaded].
  split_and!.
  - unfold save_project_geodata.
    destruct (recompute_derived _) as [derived|e] eqn:Hd; [|done].
    apply recompute_derived_Returned in Hd as (Hid & _).
    pose proof (save_keys_match env pid derived storage Hid Hkeys) as H.
    destruct (GeoDataStorage.save_project_geodata env pid derived storage) as [[] st'];
      exact H.
  - unfold delete_project_geodata.
    pose proof (delete_keys_match env pid storage Hkeys) as H.
    destruct (GeoDataStorage.delete_project_geodata env pid storage) as [[] st']; exact H.
  - unfold add_project_point.
    destruct (GeoDataStorage.load_project_geodata env pid storage) as [loaded st1].
    simpl in Hload, Hloaded.
    destruct loaded as [g|].
    + assert (project_id (set_points (points g ++ [point]) g) = pid) as Hid
        by (simpl; by apply Hloaded).
      pose proof (save_keys_match env pid _ _ Hid
                    (mutate_cached_keys_match pid _ st1 Hid Hload)) as Hsave.
      destruct (GeoDataStorage.save_project_geodata _ _ _ _) as [[] st2]; exact Hsave.
    + pose proof (save_keys_match env pid (set_points [point] (new_ProjectGeoData pid)) st1
                    eq_refl Hload) as Hsave.
      destruct (GeoDataStorage.save_project_geodata _ _ _ _) as [[] st2]; exact Hsave.
  - unfold add_project_polygon.
    destruct (GeoDataStorage.load_project_geodata env pid storage) as [loaded st1].
    simpl in Hload, Hloaded.
    destruct (recompute_polygon polygon) as [polygon'|e]; [|exact Hload].
    destruct loaded as [g|].
    + assert (project_id (set_polygons (polygons g ++ [polygon']) g) = pid) as Hid
        by (simpl; by apply Hloaded).
      pose proof (save_keys_match env pid _ _ Hid
                    (mutate_cached_keys_match pid _ st1 Hid Hload)) as Hsave.
      destruct (GeoDataStorage.save_project_geodata _ _ _ _) as [[] st2]; exact Hsave.
    + pose proof (save_keys_match env pid (set_polygons [polygon'] (new_ProjectGeoData pid))
                    st1 eq_refl Hload) as Hsave.
      destruct (GeoDataStorage.save_project_geodata _ _ _ _) as [[] st2]; exact Hsave.
  - unfold get_project_geodata.
    destruct (GeoDataStorage.load_project_geodata env pid storage) as [[g|] st1]; exact Hload.
  - unfold export_project_geodata.
    destruct (GeoDataStorage.load_project_geodata env pid storage) as [[g|] st1];
      [case_decide|]; exact Hload.
  - unfold get_project_geodata.
    destruct (GeoDataStorage.load_project_geodata env pid storage) as [[g0|] st1];
      simpl in *; [|done].
    intros g Hg. apply Hloaded. congruence.
Qed.
End Keys.

(** X9 at work: a body that names project ["other"], saved under ["p"]
    in an empty storage. *)
Lemma requests_keep_keys_match_witness :
  project_id body_other_id = "other" ∧
  keys_match (save_project_geodata (M := small_angle_math) env_ok "p" body_other_id
                (GeoDataStorage.init ∅)).2.
Proof.
  split; [reflexivity|].
  refine (proj1 (requests_keep_keys_match (M := small_angle_math) env_ok "p" "geojson"
                   body_other_id point_a polygon_with_area_property (GeoDataStorage.init ∅)
                   _)).
  split; apply map_Forall_empty.
Defined.

(** ** Appending points *)







(** X12: an append whose save fails is still served.  The point is
    appended to the very object the cache holds before the save is tried;
    when the write then fails the client is told so (HTTP 500), yet [GET]
    returns the project with the point, while the file has the old
    record (the [open] failed) or no longer parses (the write failed
    later): after a restart the point is gone. *)
Theorem failed_append_is_cached (env env' : Env) (pid : string) (point : GeoPoint)
    (storage : GeoDataStorage.t) (cached : ProjectGeoData) :
  GeoDataStorage.projects storage !! pid = Some cached →
  env_write env ≠ WriteOk →
  ∃ storage1,
    add_project_point env pid point storage
      = (Raised (HTTPException 500 "Ошибка сохранения точки"), storage1) ∧
    get_project_geodata env' pid storage1
      = (Returned (set_points (points cached ++ [point]) cached), storage1) ∧
    (GeoDataStorage.data_dir storage1 !! pid = GeoDataStorage.data_dir storage !! pid ∨
     GeoDataStorage.data_dir storage1 !! pid = Some Unreadable).
Proof.
  intros Hcache Hw. unfold add_project_point.
  rewrite (load_cached _ _ _ _ Hcache).
  unfold GeoDataStorage.save_project_geodata.
  destruct (env_write env) eqn:Hwrite; [done| |];
    (eexists; split; [reflexivity|]); unfold get_project_geodata.
  - rewrite (load_cached env' pid (set_points (points cached ++ [point]) cached));
      [|by simpl; rewrite lookup_insert_eq].
    split; [done|]. by left.
  - rewrite (load_cached env' pid (set_points (points cached ++ [point]) cached));
      [|by simpl; rewrite lookup_insert_eq].
    split; [done|]. right. simpl. by rewrite lookup_insert_eq.
Qed.

Lemma failed_append_is_cached_witness :
  ∃ storage1,
    add_project_point env_open_fails "p" point_a storage_with_p
      = (Raised (HTTPException 500 "Ошибка сохранения точки"), storage1) ∧
    get_project_geodata env_ok "p" storage1
      = (Returned (set_points [point_a] (new_ProjectGeoData "p")), storage1).
Proof.
  destruct (failed_append_is_cached env_open_fails env_ok "p" point_a storage_with_p
              (new_ProjectGeoData "p") eq_refl) as (storage1 & H1 & H2 & _); [done|].
  exists storage1. auto.
Defined.

(** ** GeometryService.calculate_line_length *)

Section Line_length.
Context {M : Math}.

(** Once the running total is an exception, the loop is over. *)
Lemma line_length_fold_Raised (coordinates : list Coordinates) (e : exn) (l : list nat) :
  fold_left (GeometryService.line_length_step coordinates) l (Raised e) = Raised e.
Proof. induction l as [|i l IH]; [done|]. exact IH. Qed.

(** The loop from index [length done_] on, over the rest of the line. *)
Lemma line_length_fold (done_ rest : list Coordinates) (total : float) :
  fold_left (GeometryService.line_length_step (done_ ++ rest))
            (seq (length done_) (length rest - 1)) (Returned total)
  = ds ← mapM segment_length (segments rest); mret (fold_left PrimFloat.add ds total).
Proof.
  revert done_ total. induction rest as [|a rest IH]; intros done_ total; [done|].
  destruct rest as [|b rest]; [done|].
  replace (length (a :: b :: rest) - 1) with (S (length rest)) by (simpl; lia).
  cbn [seq fold_left]. unfold GeometryService.line_length_step at 2.
  cbn [mbind outcome_bind].
  rewrite lookup_app_r by lia. rewrite Nat.sub_diag. cbn [lookup list_lookup].
  rewrite lookup_app_r by lia.
  replace (length done_ + 1 - length done_) with 1 by lia. cbn [lookup list_lookup].
  change (segments (a :: b :: rest)) with ((a, b) :: segments (b :: rest)).
  cbn [mapM].
  change (GeometryService.haversine_distance (latitude a) (longitude a)
            (latitude b) (longitude b)) with (segment_length (a, b)).
  destruct (segment_length (a, b)) as [distance|e];
    cbn [mbind outcome_bind mret outcome_ret].
  - specialize (IH (done_ ++ [a]) (total + distance)%float).
    rewrite <- (assoc_L (++)), length_app in IH. cbn [app length] in IH.
    replace (length done_ + 1) with (S (length done_)) in IH by lia.
    replace (S (length rest) - 1) with (length rest) in IH by lia.
    rewrite IH.
    destruct (mapM segment_length (segments (b :: rest))); done.
  - apply line_length_fold_Raised.
Qed.

Lemma mapM_Raised {A B} (f : A → outcome B) (l : list A) (x : A) (e : exn) :
  x ∈ l → f x = Raised e → ∃ e', mapM f l = Raised e'.
Proof.
  intros Hx Hraised. induction l as [|y l IH]; [by apply elem_of_nil in Hx|].
  simpl. apply elem_of_cons in Hx as [<- | Hx].
  - rewrite Hraised. by eexists.
  - destruct (f y) as [b|e']; simpl; [|by eexists].
    destruct (IH Hx) as [e' ->]. by eexists.
Qed.

Lemma calculate_line_length_Raised (coordinates : list Coordinates)
    (segment : Coordinates * Coordinates) (e : exn) :
  segment ∈ segments coordinates →
  segment_length segment = Raised e →
  ∃ e', GeometryService.calculate_line_length coordinates = Raised e'.
Proof.
  intros Hsegment Hraised. unfold GeometryService.calculate_line_length.
  destruct (length coordinates <? 2) eqn:Hshort.
  - destruct coordinates as [|a [|b rest]]; try done; by apply elem_of_nil in Hsegment.
  - pose proof (line_length_fold [] coordinates 0%float) as Hfold.
    cbn [app length] in Hfold. rewrite Hfold.
    destruct (mapM_Raised segment_length _ _ _ Hsegment Hraised) as [e' ->]. by eexists.
Qed.

(** X13: the length of a line is the sum of the lengths of its
    segments, added from the first to the last; a line of fewer than two
    coordinates has no segment and the length 0.  The call raises exactly
    when [haversine_distance] raises on a segment, and then with the
    exception of the first such segment. *)
Theorem calculate_line_length_segments (coordinates : list Coordinates) :
  GeometryService.calculate_line_length coordinates
  = ds ← mapM segment_length (segments coordinates); mret (py_sum ds).
Proof.
  unfold GeometryService.calculate_line_length.
  destruct (length coordinates <? 2) eqn:Hshort.
  - destruct coordinates as [|a [|b rest]]; done.
  - exact (line_length_fold [] coordinates 0%float).
Qed.

(** X14: one bad segment spoils the whole save.  When the body holds a
    line with a segment on which [haversine_distance] raises, the save
    endpoint raises too (the exception of the geometry code, for the
    endpoint has no handler) and nothing is stored: cache and files are
    what they were, whatever else the body holds. *)
Theorem save_rejects_failing_segment (env : Env) (pid : string) (geodata : ProjectGeoData)
    (storage : GeoDataStorage.t) (line : GeoLine) (segment : Coordinates * Coordinates)
    (e : exn) :
  line ∈ lines geodata →
  segment ∈ segments (line_coordinates line) →
  segment_length segment = Raised e →
  ∃ e', save_project_geodata env pid geodata storage = (Raised e', storage).
Proof.
  intros Hline Hsegment Hraised.
  destruct (calculate_line_length_Raised _ _ _ Hsegment Hraised) as [e1 Hlength].
  assert (∃ e', recompute_derived (set_project_id pid geodata) = Raised e') as [e' He'].
  { unfold recompute_derived.
    destruct (mapM recompute_polygon _) as [polygons'|e']; simpl; [|by eexists].
    destruct (mapM_Raised recompute_line (lines geodata) line e1 Hline) as [e' ->];
      [|by eexists].
    unfold recompute_line. by rewrite Hlength. }
  exists e'. unfold save_project_geodata. by rewrite He'.
Qed.
End Line_length.

(** X14 at work: with the tabulated [math] module, the segment from
    (8, 0) to (-8, 180) raises, and the body that holds it is not
    saved. *)
Lemma save_rejects_failing_segment_witness :
  ∃ e', save_project_geodata (M := tabulated_math) env_ok "p" request_with_antipodal_line
          (GeoDataStorage.init ∅)
        = (Raised e', GeoDataStorage.init ∅).
Proof.
  apply (save_rejects_failing_segment (M := tabulated_math) env_ok "p"
           request_with_antipodal_line (GeoDataStorage.init ∅) antipodal_line
           ({| latitude := 8; longitude := 0; altitude := None |},
            {| latitude := -8; longitude := 180; altitude := None |})
           (ValueError "math domain error")).
  - constructor.
  - constructor.
  - vm_compute. reflexivity.
Defined.

(** ** add_project_polygon *)

Section Polygon_append.
Context {M : Math}.

End Polygon_append.


(** ** GeometryService.calculate_polygon_area *)

Lemma abs_not_negative (x : float) : PrimFloat.ltb (PrimFloat.abs x) 0 = false.
Proof.
  rewrite ltb_spec, abs_spec.
  change (Prim2SF 0) with (S754_zero false).
  by destruct (Prim2SF x) as [[]|[]| |[] m e].
Qed.

Lemma abs_abs (x : float) : PrimFloat.abs (PrimFloat.abs x) = PrimFloat.abs x.
Proof.
  apply Prim2SF_inj. rewrite !abs_spec. by destruct (Prim2SF x).
Qed.

(** X16: an area is never negative.  Whatever the ring and whatever the
    cosine the [math] module gives, a returned area is not below zero and
    has its sign bit clear (it is its own absolute value: [-0.0] is never
    returned either); a ring of fewer than three coordinates has the
    area 0 and calls nothing. *)
Theorem calculate_polygon_area_not_negative {M : Math} (coordinates : list Coordinates)
    (area : float) :
  GeometryService.calculate_polygon_area coordinates = Returned area →
  PrimFloat.ltb area 0 = false ∧
  PrimFloat.abs area = area ∧
  (length coordinates < 3 → area = 0%float).
Proof.
  unfold GeometryService.calculate_polygon_area.
  destruct (length coordinates <? 3) eqn:Hshort.
  - intros [= <-]. done.
  - intros H. apply outcome_bind_Returned in H as (lat_factor & _ & [= <-]).
    split; [apply abs_not_negative|]. split; [apply abs_abs|].
    apply Nat.ltb_ge in Hshort. lia.
Qed.

Lemma calculate_polygon_area_not_negative_witness :
  ∃ area,
    GeometryService.calculate_polygon_area (M := small_angle_math) (reverse triangle_ring)
      = Returned area ∧
    PrimFloat.ltb area 0 = false.
Proof.
  eexists. split; [reflexivity|].
  exact (proj1 (calculate_polygon_area_not_negative (M := small_angle_math)
                  (reverse triangle_ring) _ eq_refl)).
Defined.

(** ** GeometryService.calculate_bounds *)

(** The order of the floats.  [<=] is transitive; on numbers (on the
    floats [x] with [x <= x], all but NaN) it is total. *)
Lemma SFleb_trans (a b c : spec_float) :
  SFleb a b = true → SFleb b c = true → SFleb a c = true.
Proof.
  unfold SFleb.
  destruct a as [[]|[]| |[] m1 e1], b as [[]|[]| |[] m2 e2], c as [[]|[]| |[] m3 e3];
    simpl; try done; fold_compare; intros H1 H2;
    repeat (order_cases; subst; cbn [CompOpp] in * ); try done; try lia.
Qed.

Lemma SFltb_false_SFleb (a b : spec_float) :
  SFleb a a = true → SFleb b b = true → SFltb a b = false → SFleb b a = true.
Proof.
  unfold SFleb, SFltb.
  destruct a as [[]|[]| |[] m1 e1], b as [[]|[]| |[] m2 e2];
    simpl; try done; fold_compare; intros _ _ H;
    repeat (order_cases; subst; cbn [CompOpp] in * ); try done; try lia.
Qed.

Lemma SFltb_SFleb (a b : spec_float) : SFltb a b = true → SFleb a b = true.
Proof. unfold SFleb, SFltb. by destruct (SFcompare a b) as [[]|]. Qed.

Lemma SFleb_refl_l (a b : spec_float) : SFleb a b = true → SFleb a a = true.
Proof.
  unfold SFleb.
  destruct a as [[]|[]| |[] m1 e1], b as [[]|[]| |[] m2 e2]; simpl; try done;
    fold_compare; rewrite ?Z.compare_refl, ?Pos.compare_refl; done.
Qed.

Lemma SFleb_refl_r (a b : spec_float) : SFleb a b = true → SFleb b b = true.
Proof.
  unfold SFleb.
  destruct a as [[]|[]| |[] m1 e1], b as [[]|[]| |[] m2 e2]; simpl; try done;
    fold_compare; rewrite ?Z.compare_refl, ?Pos.compare_refl; done.
Qed.

Lemma leb_trans (x y z : float) :
  PrimFloat.leb x y = true → PrimFloat.leb y z = true → PrimFloat.leb x z = true.
Proof. rewrite !leb_spec. apply SFleb_trans. Qed.

Lemma ltb_false_leb (x y : float) :
  PrimFloat.leb x x = true → PrimFloat.leb y y = true →
  PrimFloat.ltb x y = false → PrimFloat.leb y x = true.
Proof. rewrite !leb_spec, ltb_spec. apply SFltb_false_SFleb. Qed.

Lemma ltb_leb (x y : float) : PrimFloat.ltb x y = true → PrimFloat.leb x y = true.
Proof. rewrite leb_spec, ltb_spec. apply SFltb_SFleb. Qed.

Lemma leb_refl_l (x y : float) : PrimFloat.leb x y = true → PrimFloat.leb x x = true.
Proof. rewrite !leb_spec. apply SFleb_refl_l. Qed.

Lemma leb_refl_r (x y : float) : PrimFloat.leb x y = true → PrimFloat.leb y y = true.
Proof. rewrite !leb_spec. apply SFleb_refl_r. Qed.

(** [max] of numbers is one of them and none is above it. *)
Lemma py_max_spec (x : float) (xs : list float) :
  Forall (λ y, PrimFloat.leb y y = true) (x :: xs) →
  py_max x xs ∈ x :: xs ∧
  Forall (λ y, PrimFloat.leb y (py_max x xs) = true) (x :: xs).
Proof.
  unfold py_max. revert x. induction xs as [|y xs IH]; intros x Hnum.
  - apply Forall_cons in Hnum as [Hx _]. simpl. split; [by left|]. by constructor.
  - apply Forall_cons in Hnum as [Hx Hnum]. pose proof Hnum as Hrest.
    apply Forall_cons in Hrest as [Hy Hxs]. cbn [fold_left].
    destruct (PrimFloat.ltb x y) eqn:Hxy.
    + destruct (IH y Hnum) as [Hin Hle]. split; [by right|].
      apply Forall_cons in Hle as Hle'. destruct Hle' as [Hyr _].
      constructor; [|done]. apply (leb_trans _ y); [by apply ltb_leb|done].
    + destruct (IH x (Forall_cons_2 _ _ _ Hx Hxs)) as [Hin Hle]. split.
      * apply elem_of_cons in Hin as [-> | Hin]; [by left|]. right. by right.
      * apply Forall_cons in Hle as [Hxr Hle].
        constructor; [done|]. constructor; [|done].
        apply (leb_trans _ x); [by apply ltb_false_leb|done].
Qed.

(** [min] of numbers is one of them and none is below it. *)
Lemma py_min_spec (x : float) (xs : list float) :
  Forall (λ y, PrimFloat.leb y y = true) (x :: xs) →
  py_min x xs ∈ x :: xs ∧
  Forall (λ y, PrimFloat.leb (py_min x xs) y = true) (x :: xs).
Proof.
  unfold py_min. revert x. induction xs as [|y xs IH]; intros x Hnum.
  - apply Forall_cons in Hnum as [Hx _]. simpl. split; [by left|]. by constructor.
  - apply Forall_cons in Hnum as [Hx Hnum]. pose proof Hnum as Hrest.
    apply Forall_cons in Hrest as [Hy Hxs]. cbn [fold_left].
    destruct (PrimFloat.ltb y x) eqn:Hyx.
    + destruct (IH y Hnum) as [Hin Hle]. split; [by right|].
      apply Forall_cons in Hle as Hle'. destruct Hle' as [Hry _].
      constructor; [|done]. apply (leb_trans _ y); [done|by apply ltb_leb].
    + destruct (IH x (Forall_cons_2 _ _ _ Hx Hxs)) as [Hin Hle]. split.
      * apply elem_of_cons in Hin as [-> | Hin]; [by left|]. right. by right.
      * apply Forall_cons in Hle as [Hrx Hle].
        constructor; [done|]. constructor; [|done].
        apply (leb_trans _ x); [done|by apply ltb_false_leb].
Qed.

Lemma Coordinates_valid_numbers (c : Coordinates) :
  Coordinates_valid c = true →
  PrimFloat.leb (latitude c) (latitude c) = true ∧
  PrimFloat.leb (longitude c) (longitude c) = true.
Proof.
  unfold Coordinates_valid. rewrite !andb_true_iff. intros [[[H1 _] H2] _].
  split; eapply leb_refl_r; eassumption.
Qed.

Lemma calculate_bounds_lookup (c : Coordinates) (cs : list Coordinates) (key : string) :
  GeometryService.calculate_bounds (c :: cs) !! key
  = (<["north" := py_max (latitude c) (map latitude cs)]>
      (<["south" := py_min (latitude c) (map latitude cs)]>
        (<["east" := py_max (longitude c) (map longitude cs)]>
          (<["west" := py_min (longitude c) (map longitude cs)]> ∅)))
     : gmap string float) !! key.
Proof. done. Qed.

Lemma elem_of_map {A B} (f : A → B) (l : list A) (x : A) : x ∈ l → f x ∈ map f l.
Proof. induction 1; simpl; by constructor. Qed.

Lemma elem_of_map_inv {A B} (f : A → B) (l : list A) (y : B) :
  y ∈ map f l → ∃ x, y = f x ∧ x ∈ l.
Proof.
  induction l as [|a l IH]; simpl; intros Hy; [by apply elem_of_nil in Hy|].
  apply elem_of_cons in Hy as [-> | Hy].
  - exists a. split; [done|by left].
  - destruct (IH Hy) as (x & -> & Hx). exists x. split; [done|by right].
Qed.

Lemma valid_latitudes (coordinates : list Coordinates) :
  Forall (λ c, Coordinates_valid c = true) coordinates →
  Forall (λ y, PrimFloat.leb y y = true) (map latitude coordinates).
Proof.
  induction 1 as [|c cs Hc _ IH]; simpl; constructor; [|done].
  by apply Coordinates_valid_numbers in Hc as [? ?].
Qed.

Lemma valid_longitudes (coordinates : list Coordinates) :
  Forall (λ c, Coordinates_valid c = true) coordinates →
  Forall (λ y, PrimFloat.leb y y = true) (map longitude coordinates).
Proof.
  induction 1 as [|c cs Hc _ IH]; simpl; constructor; [|done].
  by apply Coordinates_valid_numbers in Hc as [? ?].
Qed.

Lemma calculate_bounds_within (coordinates : list Coordinates) :
  Forall (λ c, Coordinates_valid c = true) coordinates →
  Forall (λ c, within (GeometryService.calculate_bounds coordinates) c = true) coordinates.
Proof.
  intros Hvalid. destruct coordinates as [|c cs]; [done|].
  assert (Forall (λ y, PrimFloat.leb y y = true) (latitude c :: map latitude cs)) as Hlats
    by exact (valid_latitudes _ Hvalid).
  assert (Forall (λ y, PrimFloat.leb y y = true) (longitude c :: map longitude cs)) as Hlons
    by exact (valid_longitudes _ Hvalid).
  destruct (py_max_spec _ _ Hlats) as [_ Hn]. destruct (py_min_spec _ _ Hlats) as [_ Hs].
  destruct (py_max_spec _ _ Hlons) as [_ He]. destruct (py_min_spec _ _ Hlons) as [_ Hw].
  rewrite Forall_forall in Hn, Hs, He, Hw.
  apply Forall_forall. intros c' Hc'.
  pose proof (elem_of_map latitude _ _ Hc') as Hlat.
  pose proof (elem_of_map longitude _ _ Hc') as Hlon.
  unfold within. rewrite !calculate_bounds_lookup. simplify_map_eq.
  rewrite !andb_true_iff. split_and!; [by apply Hs|by apply Hn|by apply Hw|by apply He].
Qed.

(** X17: the bounds are the tightest box.  For coordinates that passed
    the validators, every coordinate lies within the computed bounds, and
    each of the four bounds is attained: north and south are latitudes,
    east and west longitudes, of coordinates of the sequence (so the
    bounds pass the validators as well). *)
Theorem calculate_bounds_covers (coordinates : list Coordinates) :
  Forall (λ c, Coordinates_valid c = true) coordinates →
  Forall (λ c, within (GeometryService.calculate_bounds coordinates) c = true) coordinates ∧
  (coordinates ≠ [] →
   ∃ n s e w,
     n ∈ coordinates ∧ s ∈ coordinates ∧ e ∈ coordinates ∧ w ∈ coordinates ∧
     GeometryService.calculate_bounds coordinates !! "north" = Some (latitude n) ∧
     GeometryService.calculate_bounds coordinates !! "south" = Some (latitude s) ∧
     GeometryService.calculate_bounds coordinates !! "east" = Some (longitude e) ∧
     GeometryService.calculate_bounds coordinates !! "west" = Some (longitude w)).
Proof.
  intros Hvalid. split; [by apply calculate_bounds_within|].
  destruct coordinates as [|c cs]; [done|]. intros _.
  assert (Forall (λ y, PrimFloat.leb y y = true) (latitude c :: map latitude cs)) as Hlats
    by exact (valid_latitudes _ Hvalid).
  assert (Forall (λ y, PrimFloat.leb y y = true) (longitude c :: map longitude cs)) as Hlons
    by exact (valid_longitudes _ Hvalid).
  destruct (py_max_spec _ _ Hlats) as [Hn_in _]. destruct (py_min_spec _ _ Hlats) as [Hs_in _].
  destruct (py_max_spec _ _ Hlons) as [He_in _]. destruct (py_min_spec _ _ Hlons) as [Hw_in _].
  apply (elem_of_map_inv latitude (c :: cs)) in Hn_in as (n & Hn_eq & Hn_in).
  apply (elem_of_map_inv latitude (c :: cs)) in Hs_in as (s & Hs_eq & Hs_in).
  apply (elem_of_map_inv longitude (c :: cs)) in He_in as (e & He_eq & He_in).
  apply (elem_of_map_inv longitude (c :: cs)) in Hw_in as (w & Hw_eq & Hw_in).
  exists n, s, e, w. rewrite !calculate_bounds_lookup. simplify_map_eq.
  rewrite <- Hn_eq, <- Hs_eq, <- He_eq, <- Hw_eq. done.
Qed.

Lemma calculate_bounds_covers_witness :
  Forall (λ c, within (GeometryService.calculate_bounds triangle_ring) c = true) triangle_ring.
Proof.
  refine (proj1 (calculate_bounds_covers triangle_ring _)).
  repeat constructor.
Defined.

Section Saved_bounds.
Context {M : Math}.

End Saved_bounds.


(** ** Reading and exporting *)

Lemma load_load (env : Env) (pid : string) (storage : GeoDataStorage.t) :
  GeoDataStorage.load_project_geodata env pid
    (GeoDataStorage.load_project_geodata env pid storage).2
  = GeoDataStorage.load_project_geodata env pid storage ∧
  GeoDataStorage.data_dir (GeoDataStorage.load_project_geodata env pid storage).2
  = GeoDataStorage.data_dir storage.
Proof.
  unfold GeoDataStorage.load_project_geodata at 2 3 4.
  destruct (GeoDataStorage.projects storage !! pid) as [cached|] eqn:Hcache.
  { split; [by apply load_cached|done]. }
  destruct (GeoDataStorage.data_dir storage !! pid) as [[g stamp|]|] eqn:Hfile.
  - destruct (env_read env) eqn:Hread; simpl.
    + split; [|done]. apply load_cached. simpl. by rewrite lookup_insert_eq.
    + split; [|done]. unfold GeoDataStorage.load_project_geodata.
      by rewrite Hcache, Hfile, Hread.
  - split; [|by destruct (env_read env)].
    destruct (env_read env) eqn:Hread; simpl;
      unfold GeoDataStorage.load_project_geodata; by rewrite Hcache, Hfile, Hread.
  - split; [|done]. simpl. by apply load_unknown.
Qed.

(** X19: reading is idempotent and leaves the files alone.  A [GET] or
    an export, found or not, never changes a file; repeated in the same
    surroundings it gives the same answer and leaves the storage as the
    first one left it (the first may have filled the cache). *)
Theorem reads_are_idempotent (env : Env) (pid format : string) (storage : GeoDataStorage.t) :
  get_project_geodata env pid (get_project_geodata env pid storage).2
    = get_project_geodata env pid storage ∧
  GeoDataStorage.data_dir (get_project_geodata env pid storage).2
    = GeoDataStorage.data_dir storage ∧
  export_project_geodata env pid format (export_project_geodata env pid format storage).2
    = export_project_geodata env pid format storage ∧
  GeoDataStorage.data_dir (export_project_geodata env pid format storage).2
    = GeoDataStorage.data_dir storage.
Proof.
  destruct (load_load env pid storage) as [Hagain Hfiles].
  unfold get_project_geodata, export_project_geodata.
  destruct (GeoDataStorage.load_project_geodata env pid storage) as [[g|] st1];
    simpl in Hagain, Hfiles.
  - case_decide; simpl; rewrite Hagain; by rewrite ?decide_True, ?decide_False by done.
  - simpl. by rewrite Hagain.
Qed.

Section Export_after_save.
Context {M : Math}.

End Export_after_save.


(** ** The calculator endpoints *)

Section Calculator_facts.
Context {M : Math} {B : Builtins}.

(** X21: what the two calculators answer.  Either a response or HTTP
    500 with the endpoint's own message, never an exception of the
    geometry code: 500 exactly when the geometry call raises.  A response
    carries the value of the geometry call untouched (in meters, in
    square meters) whatever the unit asked for, echoes the unit, and in
    the base unit its rounded figure is the rounding of that value; an
    area is never below zero. *)
Theorem calculator_responses :
  (∀ request : DistanceRequest,
     match calculate_distance request with
     | Returned response =>
         ∃ distance_m,
           GeometryService.haversine_distance
             (latitude (point1 request)) (longitude (point1 request))
             (latitude (point2 request)) (longitude (point2 request))
           = Returned distance_m ∧
           json_get "distance_meters" response = Some (JNum distance_m) ∧
           json_get "unit" response = Some (JStr (distance_unit request)) ∧
           (distance_unit request = "meters" →
              json_get "distance" response = Some (JNum (round distance_m 2)))
     | Raised e =>
         e = HTTPException 500 "Ошибка расчета расстояния" ∧
         ∃ e', GeometryService.haversine_distance
                 (latitude (point1 request)) (longitude (point1 request))
                 (latitude (point2 request)) (longitude (point2 request))
               = Raised e'
     end) ∧
  (∀ request : AreaRequest,
     match calculate_area request with
     | Returned response =>
         ∃ area_sqm,
           GeometryService.calculate_polygon_area (area_coordinates request)
           = Returned area_sqm ∧
           PrimFloat.ltb area_sqm 0 = false ∧
           json_get "area_sqm" response = Some (JNum area_sqm) ∧
           json_get "unit" response = Some (JStr (area_unit request)) ∧
           (area_unit request = "sqm" →
              json_get "area" response = Some (JNum (round area_sqm 2)))
     | Raised e =>
         e = HTTPException 500 "Ошибка расчета площади" ∧
         ∃ e', GeometryService.calculate_polygon_area (area_coordinates request)
               = Raised e'
     end).
Proof.
  split; intros request.
  - unfold calculate_distance.
    destruct (GeometryService.haversine_distance _ _ _ _) as [distance_m|e'];
      [|by eauto].
    exists distance_m. split; [done|]. split; [reflexivity|]. split; [reflexivity|].
    intros ->. reflexivity.
  - unfold calculate_area.
    destruct (GeometryService.calculate_polygon_area _) as [area_sqm|e'] eqn:Harea;
      [|by eauto].
    exists area_sqm. split; [done|]. split.
    { unfold GeometryService.calculate_polygon_area in Harea.
      destruct (length (area_coordinates request) <? 3); [by injection Harea as <-|].
      apply outcome_bind_Returned in Harea as (lat_factor & _ & [= <-]).
      apply abs_not_negative. }
    split; [reflexivity|]. split; [reflexivity|].
    intros ->. reflexivity.
Qed.
End Calculator_facts.

(** ** The geocoder *)

Lemma below_forallb (P : nat → bool) (bound : nat) :
  forallb P (seq 0 bound) = true → ∀ n, n < bound → P n = true.
Proof.
  intros H n Hn. rewrite forallb_forall in H. apply H. apply in_seq. lia.
Qed.

(** The coordinates of the two branches of the mock, by the remainder of
    the hash. *)
Lemma moscow_coordinates_valid (k : Z) :
  (0 ≤ k < 100)%Z →
  let c := {| latitude := 55.7558 + int_truediv k 10000;
              longitude := 37.6176 + int_truediv k 10000; altitude := None |} in
  Coordinates_valid c = true ∧
  PrimFloat.leb 55.7558 (latitude c) = true ∧ PrimFloat.leb (latitude c) 55.77 = true ∧
  PrimFloat.leb 37.6176 (longitude c) = true ∧ PrimFloat.leb (longitude c) 37.63 = true.
Proof.
  intros Hk.
  pose (check := λ n : nat,
    let c := {| latitude := 55.7558 + int_truediv (Z.of_nat n) 10000;
                longitude := 37.6176 + int_truediv (Z.of_nat n) 10000; altitude := None |} in
    Coordinates_valid c &&
    PrimFloat.leb 55.7558 (latitude c) && PrimFloat.leb (latitude c) 55.77 &&
    PrimFloat.leb 37.6176 (longitude c) && PrimFloat.leb (longitude c) 37.63).
  assert (check (Z.to_nat k) = true) as Hcheck.
  { apply (below_forallb check 100); [vm_compute; reflexivity|lia]. }
  unfold check in Hcheck. rewrite Z2Nat.id in Hcheck by lia.
  rewrite !andb_true_iff in Hcheck. tauto.
Qed.

Lemma elsewhere_coordinates_valid (k : Z) :
  (0 ≤ k < 1000)%Z →
  let c := {| latitude := 55.0 + int_truediv k 100;
              longitude := 37.0 + int_truediv k 100; altitude := None |} in
  Coordinates_valid c = true ∧
  PrimFloat.leb 55 (latitude c) = true ∧ PrimFloat.leb (latitude c) 65 = true ∧
  PrimFloat.leb 37 (longitude c) = true ∧ PrimFloat.leb (longitude c) 47 = true.
Proof.
  intros Hk.
  pose (check := λ n : nat,
    let c := {| latitude := 55.0 + int_truediv (Z.of_nat n) 100;
                longitude := 37.0 + int_truediv (Z.of_nat n) 100; altitude := None |} in
    Coordinates_valid c &&
    PrimFloat.leb 55 (latitude c) && PrimFloat.leb (latitude c) 65 &&
    PrimFloat.leb 37 (longitude c) && PrimFloat.leb (longitude c) 47).
  assert (check (Z.to_nat k) = true) as Hcheck.
  { apply (below_forallb check 1000); [vm_compute; reflexivity|lia]. }
  unfold check in Hcheck. rewrite Z2Nat.id in Hcheck by lia.
  rewrite !andb_true_iff in Hcheck. tauto.
Qed.

(** X22: the mock geocoder always has exactly one answer, and a usable
    one.  Whatever the address, the country and the limit, and whatever
    [hash] and [lower] give, [POST /geocode] returns (it never answers
    500) the query with [total_found = 1] and one result, whose
    coordinates pass the validators of [Coordinates]: they lie between
    55 and 65 degrees north and between 37 and 47 degrees east. *)
Theorem geocode_one_valid_result {B : Builtins} (request : GeocodeRequest) :
  ∃ result c,
    geocode_address request
      = Returned {| query := request_address request; results := [result];
                    total_found := 1 |} ∧
    result_coordinates result = Some c ∧
    Coordinates_valid c = true ∧
    PrimFloat.leb 55 (latitude c) = true ∧ PrimFloat.leb (latitude c) 65 = true ∧
    PrimFloat.leb 37 (longitude c) = true ∧ PrimFloat.leb (longitude c) 47 = true.
Proof.
  unfold geocode_address, GeocodingService.geocode_address.
  destruct (str_in "москва" (str_lower (request_address request))
            || str_in "moscow" (str_lower (request_address request))).
  - destruct (moscow_coordinates_valid (hash (request_address request) `mod` 100))
      as (Hvalid & Hs & Hn & Hw & He); [by apply Z.mod_pos_bound|].
    eexists _, _. split; [reflexivity|]. split; [reflexivity|].
    split; [exact Hvalid|]. simpl in Hs, Hn, Hw, He. simpl.
    split_and!.
    + eapply leb_trans; [|exact Hs]. reflexivity.
    + eapply leb_trans; [exact Hn|]. reflexivity.
    + eapply leb_trans; [|exact Hw]. reflexivity.
    + eapply leb_trans; [exact He|]. reflexivity.
  - destruct (elsewhere_coordinates_valid (hash (request_address request) `mod` 1000))
      as (Hvalid & Hs & Hn & Hw & He); [by apply Z.mod_pos_bound|].
    eexists _, _. split; [reflexivity|]. split; [reflexivity|].
    split; [exact Hvalid|]. by split_and!.
Qed.

(** ** Lines in the export *)

Lemma line_feature_geometry (line : GeoLine) :
  json_get "geometry" (line_feature line)
  = Some (JDict {[ "type" := JStr "LineString";
                   "coordinates" := JList (map lon_lat (line_coordinates line)) ]}).
Proof. reflexivity. Qed.

Lemma line_feature_properties (line : GeoLine) :
  json_get "properties" (line_feature line)
  = Some (JDict (line_properties line
                 ∪ {[ "id" := JStr (line_id line);
                      "length_m" := json_of_optional_float (length_m line) ]})).
Proof. reflexivity. Qed.

(** X23: the lines of a GeoJSON export.  The features of the lines come
    after those of the points and polygons, in the order of the lines;
    each is a [LineString] whose coordinates are the line's, every one as
    [longitude, latitude]; its properties give the line's [length_m] and
    [id], unless the line's own [properties] have an entry of that name,
    which then takes its place. *)
Theorem export_line_features (env : Env) (pid format : string)
    (storage storage' : GeoDataStorage.t) (gj : json) :
  export_project_geodata env pid format storage = (Returned gj, storage') →
  ∃ geodata,
    GeoDataStorage.load_project_geodata env pid storage = (Some geodata, storage') ∧
    json_get "features" gj = Some (JList (features geodata)) ∧
    ∀ k line, lines geodata !! k = Some line →
      ∃ feature properties,
        features geodata !! (length (points geodata) + length (polygons geodata) + k)
          = Some feature ∧
        json_get "geometry" feature ≫= json_get "type" = Some (JStr "LineString") ∧
        json_get "geometry" feature ≫= json_get "coordinates"
          = Some (JList (map (λ c, JList [JNum (longitude c); JNum (latitude c)])
                             (line_coordinates line))) ∧
        json_get "properties" feature = Some (JDict properties) ∧
        properties !! "length_m"
          = Some (default (json_of_optional_float (length_m line))
                          (line_properties line !! "length_m")) ∧
        properties !! "id"
          = Some (default (JStr (line_id line)) (line_properties line !! "id")).
Proof.
  unfold export_project_geodata.
  destruct (GeoDataStorage.load_project_geodata env pid storage) as [[geodata|] st] eqn:Hload;
    [|intros [=]].
  case_decide; intros [= <- <-].
  exists geodata. split; [done|]. split; [reflexivity|].
  intros k line Hk. eexists (line_feature line), _. split_and!.
  - unfold features. rewrite lookup_app_r; rewrite length_map; [|lia].
    rewrite lookup_app_r; rewrite length_map; [|lia].
    replace (length (points geodata) + length (polygons geodata) + k
             - length (points geodata) - length (polygons geodata)) with k by lia.
    by rewrite list_lookup_fmap, Hk.
  - by rewrite line_feature_geometry.
  - by rewrite line_feature_geometry.
  - apply line_feature_properties.
  - destruct (line_properties line !! "length_m") as [v|] eqn:Hown; simpl.
    + by apply lookup_union_Some_l.
    + rewrite lookup_union_r by done. by simplify_map_eq.
  - destruct (line_properties line !! "id") as [v|] eqn:Hown; simpl.
    + by apply lookup_union_Some_l.
    + rewrite lookup_union_r by done. by simplify_map_eq.
Qed.

Lemma export_line_features_witness :
  ∃ gj feature,
    (export_project_geodata env_ok "p" "geojson"
       (save_project_geodata (M := small_angle_math) env_ok "p" sample_request
          (GeoDataStorage.init ∅)).2).1 = Returned gj ∧
    json_get "features" gj ≫= (λ fs, match fs with JList l => l !! 2 | _ => None end)
      = Some feature ∧
    json_get "geometry" feature ≫= json_get "coordinates"
      = Some (JList [JList [JNum 1%float; JNum 1%float]; JList [JNum 2%float; JNum 1%float]]).
Proof.
  destruct (export_line_features env_ok "p" "geojson"
              (save_project_geodata (M := small_angle_math) env_ok "p" sample_request
                 (GeoDataStorage.init ∅)).2 _ _ eq_refl)
    as (geodata & Hload & Hfeatures & Hlines).
  injection Hload as <-.
  destruct (Hlines 0 _ eq_refl) as (feature & properties & Hfeature & _ & Hcoordinates & _).
  eexists _, feature. split; [reflexivity|]. split; [|exact Hcoordinates].
  simpl. exact Hfeature.
Defined.

(** ** Saving again what was loaded *)

Section Resave.
Context {M : Math}.





End Resave.

